(** * update-virtualbox-machines: a shallow embedding of [main.py]

    The script patches a fleet of VirtualBox guests: it lists the machines,
    boots each one, runs the package managers inside the guest, waits for a
    completion marker, and powers the machine off again.  Everything it
    learns about the world comes from scraping the text printed by the
    [VBoxManage] command.

    The development is organised as follows.
    - [Py]: the Python string primitives the script relies on
      (split, startswith, index, count, slices, format, the [in] test).
    - The pure functions of the script ([find_property_value],
      [parse_machines], [get_update_command], ...).
    - A small monad for the effectful part: the world is the verbosity flag,
      what was printed, and the history of external commands and sleeps;
      the external tool is a function of that history.
    - The state machine of [update] and the driver [main].
    - The properties of the specification, each stated on these
      definitions. *)

From Stdlib Require Import String Ascii List Arith ZArith Lia Bool.
From Stdlib Require Import DecimalString.
Import ListNotations.
Open Scope string_scope.

(** ** Exceptions and results *)

(** The Python exceptions that the modelled code can raise. *)
Inductive exn : Type :=
| Exception (msg : string)   (* raise Exception(msg) *)
| ValueError                 (* str.index on a missing substring, bad format field *)
| KeyError (key : string)    (* dict lookup on a missing key *)
| IndexError                 (* format field beyond the arguments *)
| TypeError                  (* len(None) *)
| SystemExit.                (* exit() *)

(** A pure computation either returns or raises. *)
Inductive result (A : Type) : Type :=
| Ok (a : A)
| Raise (e : exn).
Arguments Ok {A} a.
Arguments Raise {A} e.

Definition rbind {A B} (r : result A) (f : A -> result B) : result B :=
  match r with
  | Ok a => f a
  | Raise e => Raise e
  end.

Definition rmap {A B} (f : A -> B) (r : result A) : result B :=
  rbind r (fun a => Ok (f a)).

Declare Scope result_scope.
Delimit Scope result_scope with result.
Notation "x <- r ;; k" := (rbind r (fun x => k))
  (at level 61, r at next level, right associativity) : result_scope.

(** ** Python string primitives *)

Module Py.

(** The double quote, carriage return and line feed characters. *)
Definition dquote : ascii := "034"%char.
Definition cr : ascii := "013"%char.
Definition lf : ascii := "010"%char.

(** [dq] is the one-character string holding a double quote. *)
Definition dq : string := String dquote "".

Fixpoint drop (n : nat) (s : string) : string :=
  match n, s with
  | 0, _ => s
  | S _, "" => ""
  | S n', String _ s' => drop n' s'
  end.

Fixpoint take (n : nat) (s : string) : string :=
  match n, s with
  | 0, _ => ""
  | S _, "" => ""
  | S n', String c s' => String c (take n' s')
  end.

(** Normalisation of a slice bound: a negative bound counts from the end,
    and every bound is clamped to the length. *)
Definition bound (len : nat) (i : Z) : nat :=
  if (i <? 0)%Z then Z.to_nat (Z.max 0 (i + Z.of_nat len))
  else Nat.min (Z.to_nat i) len.

(** [slice start stop s] is [s[start:stop]]; [None] is an omitted bound. *)
Definition slice (start stop : option Z) (s : string) : string :=
  let len := String.length s in
  let a := match start with None => 0 | Some i => bound len i end in
  let b := match stop with None => len | Some j => bound len j end in
  take (b - a) (drop a s).

(** [s.startswith(p)] *)
Definition startswith (s p : string) : bool := String.prefix p s.

(** [sub in s] *)
Definition contains (sub s : string) : bool :=
  match String.index 0 sub s with
  | Some _ => true
  | None => false
  end.

(** [s.index(sub)]: the position of the first occurrence, or ValueError. *)
Definition index (s sub : string) : result nat :=
  match String.index 0 sub s with
  | Some i => Ok i
  | None => Raise ValueError
  end.

(** [s.count(sub)] for a non-empty [sub]: the number of non-overlapping
    occurrences, scanning from the left.  The fuel is the length of [s],
    which every occurrence consumes at least one character of. *)
Fixpoint count_from (fuel : nat) (s sub : string) : nat :=
  match fuel with
  | 0 => 0
  | S fuel' =>
      match String.index 0 sub s with
      | Some i => S (count_from fuel' (drop (i + String.length sub) s) sub)
      | None => 0
      end
  end.

Definition count (s sub : string) : nat :=
  count_from (String.length s) s sub.

(** [s.split(sep)] for a non-empty [sep]: the pieces between the
    occurrences of [sep], found from the left; one piece more than there
    are occurrences. *)
Fixpoint split_from (fuel : nat) (s sep : string) : list string :=
  match fuel with
  | 0 => [s]
  | S fuel' =>
      match String.index 0 sep s with
      | Some i => take i s :: split_from fuel' (drop (i + String.length sep) s) sep
      | None => [s]
      end
  end.

Definition split (s sep : string) : list string :=
  split_from (String.length s) s sep.

(** [sep.join(pieces)] *)
Definition join (sep : string) (pieces : list string) : string :=
  String.concat sep pieces.

(** The value of a decimal digit character. *)
Definition digit (c : ascii) : option nat :=
  let n := nat_of_ascii c in
  if ((48 <=? n)%nat && (n <=? 57)%nat)%bool then Some (n - 48) else None.

(** [t.format(args...)] for the templates of the script: a field is a
    single digit between braces and is replaced by the argument of that
    position; doubled braces stand for one brace.  A field beyond the
    arguments raises IndexError.  The other field forms of Python do not
    occur in the script and are mapped to ValueError. *)
Fixpoint format (t : string) (args : list string) : result string :=
  match t with
  | "" => Ok ""
  | String c t1 =>
      if (c =? "{")%char then
        match t1 with
        | "" => Raise ValueError
        | String d t2 =>
            if (d =? "{")%char then rmap (String "{"%char) (format t2 args)
            else
              match t2 with
              | "" => Raise ValueError
              | String e t3 =>
                  if (e =? "}")%char then
                    match digit d with
                    | Some i =>
                        match nth_error args i with
                        | Some a => rmap (append a) (format t3 args)
                        | None => Raise IndexError
                        end
                    | None => Raise ValueError
                    end
                  else Raise ValueError
              end
        end
      else if (c =? "}")%char then
        match t1 with
        | "" => Raise ValueError
        | String d t2 =>
            if (d =? "}")%char then rmap (String "}"%char) (format t2 args)
            else Raise ValueError
        end
      else rmap (String c) (format t1 args)
  end.

(** [has_char c s]: the character [c] occurs in [s]. *)
Fixpoint has_char (c : ascii) (s : string) : bool :=
  match s with
  | "" => false
  | String x s' => (x =? c)%char || has_char c s'
  end.

(** Truth value of a string: non-empty. *)
Definition truthy (s : string) : bool :=
  match s with
  | "" => false
  | String _ _ => true
  end.

(** [str(n)] for a natural number. *)
Definition str_of_nat (n : nat) : string :=
  NilZero.string_of_uint (Nat.to_uint n).

End Py.

(** ** Module-level constants of the script *)

(** [flag]: the completion sentinel echoed by the guest command. *)
Definition flag : string := "UpdateVirtualBoxMachinesFinalSignalOperationIsComplete".

(** [newline]: carriage return, line feed. *)
Definition newline : string := String Py.cr (String Py.lf "").

(** ** Data model *)

(** A machine of the listing: the dict with keys name and uuid. *)
Record Machine : Type := mkMachine {
  name : string;
  uuid : string
}.

(** The dict built by [parse_arguments]. *)
Record Options : Type := mkOptions {
  username : string;
  password : string;
  remove : bool;
  shutdown : bool;
  verbose_option : bool
}.

(** A dict from manager name to presence, in insertion order. *)
Definition Managers : Type := list (string * bool).

(** [d[key]] *)
Fixpoint dict_get (d : Managers) (key : string) : result bool :=
  match d with
  | [] => Raise (KeyError key)
  | (k, v) :: d' => if (k =? key)%string then Ok v else dict_get d' key
  end.

(** [d[key] = value]: an existing key keeps its position. *)
Fixpoint dict_set (d : Managers) (key : string) (value : bool) : Managers :=
  match d with
  | [] => [(key, value)]
  | (k, v) :: d' =>
      if (k =? key)%string then (k, value) :: d' else (k, v) :: dict_set d' key value
  end.

(** ** Pure functions of the script *)

Section Pure.
Local Open Scope result_scope.

(** The loop of [find_property_value] over the lines of the dump. *)
Fixpoint find_property_value_lines (lines : list string) (property : string)
  : result string :=
  match lines with
  | [] =>
      msg <- Py.format "find_property_value() - Property '{0}' not found" [property] ;;
      Raise (Exception msg)
  | line :: rest =>
      if Py.startswith line property then
        i <- Py.index line Py.dq ;;
        Ok (Py.slice (Some (Z.of_nat i + 1)%Z) (Some (-1)%Z) line)
      else find_property_value_lines rest property
  end.

(** [find_property_value(vminfo, property)] *)
Definition find_property_value (vminfo property : string) : result string :=
  find_property_value_lines (Py.split vminfo newline) property.

(** The format test of [parse_machines] on one line. *)
Definition known_format (line : string) : bool :=
  (2 =? Py.count line Py.dq)%nat &&
  (4 =? Py.count line "-")%nat &&
  (1 =? Py.count line "{")%nat &&
  (1 =? Py.count line "}")%nat.

(** The body of the loop of [parse_machines] after the format test:
    the machine read from one line. *)
Definition parse_machine (line : string) : result Machine :=
  let line := Py.slice (Some 1%Z) None line in
  i <- Py.index line Py.dq ;;
  let vm_name := Py.slice None (Some (Z.of_nat i)) line in
  j <- Py.index line Py.dq ;;
  let vm_uuid := Py.slice (Some (Z.of_nat j + 3)%Z) (Some (-1)%Z) line in
  Ok {| name := vm_name; uuid := vm_uuid |}.

(** The loop of [parse_machines]; [vms] is the list built so far.  The
    loop returns the list at an empty line; when the lines run out the
    function ends without a return statement and yields [None]. *)
Fixpoint parse_machines_lines (lines : list string) (vms : list Machine)
  : result (option (list Machine)) :=
  match lines with
  | [] => Ok None
  | line :: rest =>
      if ("" =? line)%string then Ok (Some vms)
      else if negb (known_format line) then
        Raise (Exception "Command 'list vms' returned unknown format")
      else
        vm <- parse_machine line ;;
        parse_machines_lines rest (vms ++ [vm])
  end.

(** [parse_machines(list)] *)
Definition parse_machines (listing : string) : result (option (list Machine)) :=
  parse_machines_lines (Py.split listing newline) [].

(** [get_update_command(managers, args)] *)
Definition get_update_command (managers : Managers) (args : Options)
  : result string :=
  let command := "" in
  apt <- dict_get managers "apt" ;;
  let command :=
    if apt then
      let command := command ++ "{0} apt update && {0} apt upgrade -y && " in
      if remove args then command ++ "{0} apt autoremove -y && " else command
    else command in
  snap <- dict_get managers "snap" ;;
  let command :=
    if snap then command ++ "{0} snap refresh && " else command in
  echo <- Py.format "echo {0}" [flag] ;;
  let command := command ++ echo in
  wrapper <- Py.format "echo {0} | sudo -S" [password args] ;;
  Py.format command [wrapper].

(** The argument that [run_command] hands to [vboxmanage].  The two
    adjacent literals of the source are concatenated as they stand, so the
    password is followed directly by the word run. *)
Definition guestcontrol_command (vm : Machine) (args : Options) (command : string)
  : result string :=
  Py.format
    ("guestcontrol {0} --username {1} --password {2}"
     ++ "run --exe " ++ Py.dq ++ "/bin/sh" ++ Py.dq
     ++ " -- " ++ Py.dq ++ "/bin/sh" ++ Py.dq
     ++ " " ++ Py.dq ++ "-c" ++ Py.dq
     ++ " " ++ Py.dq ++ "{3}" ++ Py.dq
     ++ "")
    [uuid vm; username args; password args; command].

End Pure.

(** ** The world and the monad of the effectful code *)

(** What the script does to the outside: it runs a command line and waits
    for its output, it sleeps, and it starts a process without waiting. *)
Inductive event : Type :=
| ERun (cmdline output : string)   (* Popen(cmdline) and communicate() *)
| ESleep (seconds : nat)           (* time.sleep(seconds) *)
| ESpawn (cmdline : string).       (* Popen(cmdline), not waited for *)

(** The state of a run: the global [verbose], the lines printed, and the
    events so far, oldest first.  The last field is a ghost: the texts in
    which the completion loop of [update] looked for the sentinel, in
    order.  The script keeps no such record and nothing reads it; it is
    there to count those checks. *)
Record World : Type := mkWorld {
  verbose : bool;
  stdout : list string;
  history : list event;
  inspected : list string
}.

(** A call either returns, raises, or is still running when the fuel of an
    unbounded loop is spent. *)
Inductive status (A : Type) : Type :=
| Returned (a : A)
| Raised (e : exn)
| Pending.
Arguments Returned {A} a.
Arguments Raised {A} e.
Arguments Pending {A}.

Definition M (A : Type) : Type := World -> status A * World.

Definition ret {A} (a : A) : M A := fun w => (Returned a, w).

Definition bind {A B} (m : M A) (f : A -> M B) : M B :=
  fun w =>
    match m w with
    | (Returned a, w') => f a w'
    | (Raised e, w') => (Raised e, w')
    | (Pending, w') => (Pending, w')
    end.

Definition lift {A} (r : result A) : M A :=
  fun w =>
    match r with
    | Ok a => (Returned a, w)
    | Raise e => (Raised e, w)
    end.

Definition pending {A} : M A := fun w => (Pending, w).

Declare Scope prog_scope.
Delimit Scope prog_scope with prog.
Notation "x <- m ;; k" := (bind m (fun x => k))
  (at level 61, m at next level, right associativity) : prog_scope.
Notation "m ;; k" := (bind m (fun _ => k))
  (at level 61, right associativity) : prog_scope.

(** [print(msg)]: one more line on the standard output. *)
Definition print (msg : string) : M unit :=
  fun w => (Returned tt,
            {| verbose := verbose w; stdout := stdout w ++ [msg];
               history := history w; inspected := inspected w |}).

(** [print_if_verbose(message)] *)
Definition print_if_verbose (message : string) : M unit :=
  fun w => if verbose w then print message w else (Returned tt, w).

(** [global verbose; verbose = True] *)
Definition set_verbose : M unit :=
  fun w => (Returned tt,
            {| verbose := true; stdout := stdout w;
               history := history w; inspected := inspected w |}).

Definition record (e : event) (w : World) : World :=
  {| verbose := verbose w; stdout := stdout w;
     history := history w ++ [e]; inspected := inspected w |}.

(** [sub in text], noted in the ghost field. *)
Definition inspect (sub text : string) : M bool :=
  fun w => (Returned (Py.contains sub text),
            {| verbose := verbose w; stdout := stdout w;
               history := history w; inspected := inspected w ++ [text] |}).

(** [time.sleep(seconds)] *)
Definition sleep (seconds : nat) : M unit :=
  fun w => (Returned tt, record (ESleep seconds) w).

(** [subprocess.Popen(cmdline)] without waiting for the process. *)
Definition spawn (cmdline : string) : M unit :=
  fun w => (Returned tt, record (ESpawn cmdline) w).

(** [exit()] *)
Definition exit {A} : M A := fun w => (Raised SystemExit, w).

(** The locals of [update] that its two bounded loops read and write. *)
Record Locals : Type := mkLocals {
  attempt_count : nat;
  error_detected : bool;
  response : string
}.

(** [attempt_count = 0] between the two loops. *)
Definition reset_attempt_count (l : Locals) : Locals :=
  {| attempt_count := 0;
     error_detected := error_detected l;
     response := response l |}.

Section Program.
Local Open Scope prog_scope.

(** [sys.platform]. *)
Variable platform : string.

(** The external tool: given the events so far and a command line, the
    decoded standard output and standard error of the process.  Any
    stub, and any behaviour of the real tool that changes with what was
    run before and with the time slept, is such a function. *)
Variable popen : list event -> string -> string * string.

(** [get_host_os()] *)
Definition get_host_os : string :=
  if ("win32" =? platform)%string then "Windows" else "Linux".

(** [vboxmanage(command)].  The process is taken to start and its output
    to decode: a run in which [Popen] or [decode] raises is outside this
    model, and every statement below is about the runs in which the tool
    answers each call. *)
Definition vboxmanage (command : string) : M string :=
  fun w =>
    let binary := "" in
    let binary :=
      if ("Windows" =? get_host_os)%string
      then Py.dq ++ "C:/Program Files/Oracle/VirtualBox/VBoxManage.exe" ++ Py.dq
      else "VBoxManage" in
    let cmdline := binary ++ " " ++ command in
    let (out, err) := popen (history w) cmdline in
    (Returned (out ++ err), record (ERun cmdline (out ++ err)) w).

(** [run_command(vm, args, command)] *)
Definition run_command (vm : Machine) (args : Options) (command : string)
  : M string :=
  vbox_command <- lift (guestcontrol_command vm args command) ;;
  vboxmanage vbox_command.

(** The loop of [discover_package_managers] over the keys of the dict. *)
Fixpoint discover_package_managers_keys (vm : Machine) (args : Options)
    (keys : list string) (managers : Managers) : M Managers :=
  match keys with
  | [] => ret managers
  | manager :: rest =>
      probe <- lift (Py.format "which {0}" [manager]) ;;
      response <- run_command vm args probe ;;
      let managers :=
        if Py.truthy response then dict_set managers manager true else managers in
      discover_package_managers_keys vm args rest managers
  end.

(** [discover_package_managers(vm, args)] *)
Definition discover_package_managers (vm : Machine) (args : Options)
  : M Managers :=
  let managers := [("apt", false); ("snap", false)] in
  discover_package_managers_keys vm args (map fst managers) managers.

(** [run_update_command(vm, args)] *)
Definition run_update_command (vm : Machine) (args : Options) : M string :=
  managers <- discover_package_managers vm args ;;
  command <- lift (get_update_command managers args) ;;
  run_command vm args command.

(** The first loop of [update]: dispatch the update command until a
    response carries no error marker, five times at most. *)
Fixpoint update_dispatch (fuel : nat) (vm : Machine) (args : Options)
    (l : Locals) : M Locals :=
  match fuel with
  | 0 => pending
  | S fuel' =>
      if error_detected l then ret l
      else
        let attempt_count := attempt_count l + 1 in
        if (5 <? attempt_count)%nat then
          ret {| attempt_count := attempt_count;
                 error_detected := true;
                 response := response l |}
        else
          response <- run_update_command vm args ;;
          let l := {| attempt_count := attempt_count;
                      error_detected := error_detected l;
                      response := response |} in
          if Py.contains "error:" response then
            sleep 30 ;;
            update_dispatch fuel' vm args l
          else ret l
  end.

(** The second loop of [update]: look for the sentinel in the response
    kept from the dispatch loop, twenty times at most. *)
Fixpoint update_completion (fuel : nat) (l : Locals) : M Locals :=
  match fuel with
  | 0 => pending
  | S fuel' =>
      if error_detected l then ret l
      else
        let attempt_count := attempt_count l + 1 in
        if (20 <? attempt_count)%nat then
          ret {| attempt_count := attempt_count;
                 error_detected := true;
                 response := response l |}
        else
          let l := {| attempt_count := attempt_count;
                      error_detected := error_detected l;
                      response := response l |} in
          found <- inspect flag (response l) ;;
          if found then ret l
          else
            sleep 30 ;;
            update_completion fuel' l
  end.

(** The last loop of [update]: [while True], left only when the machine
    reports the state poweroff. *)
Fixpoint update_shutdown (fuel : nat) (vm : Machine) : M unit :=
  match fuel with
  | 0 => pending
  | S fuel' =>
      query <- lift (Py.format "showvminfo {0} --machinereadable" [uuid vm]) ;;
      vm_info <- vboxmanage query ;;
      state <- lift (find_property_value vm_info "VMState") ;;
      if ("poweroff" =? state)%string then ret tt
      else
        sleep 15 ;;
        update_shutdown fuel' vm
  end.

(** [update(vm, args)].  The fuel bounds the iterations of each loop. *)
Definition update (fuel : nat) (vm : Machine) (args : Options) : M bool :=
  query <- lift (Py.format "showvminfo {0} --machinereadable" [uuid vm]) ;;
  vm_info <- vboxmanage query ;;
  state <- lift (find_property_value vm_info "VMState") ;;
  if negb ("poweroff" =? state)%string then ret false
  else
    ostype <- lift (find_property_value vm_info "ostype") ;;
    if ("Windows" =? ostype)%string then ret false
    else
      print_if_verbose "Starting machine" ;;
      start <- lift (Py.format "startvm {0}" [uuid vm]) ;;
      response <- vboxmanage start ;;
      sleep 60 ;;
      if negb (Py.contains "successfully started" response) then ret false
      else
        print_if_verbose "Machine started successfully" ;;
        let l := {| attempt_count := 0;
                    error_detected := false;
                    response := response |} in
        print_if_verbose "Waiting to run update command" ;;
        l <- update_dispatch fuel vm args l ;;
        let l := reset_attempt_count l in
        msg <- lift (Py.format "Update command {0}"
                       [if error_detected l then "failed" else "run"]) ;;
        print_if_verbose msg ;;
        print_if_verbose "Waiting for update to finish" ;;
        l <- update_completion fuel l ;;
        msg <- lift (Py.format "Update {0}"
                       [if error_detected l then "timed out" else "completed"]) ;;
        print_if_verbose msg ;;
        print_if_verbose "Shutting down machine" ;;
        off <- lift (Py.format "controlvm {0} acpipowerbutton" [uuid vm]) ;;
        _ <- vboxmanage off ;;
        sleep 30 ;;
        update_shutdown fuel vm ;;
        print_if_verbose "Shutdown complete" ;;
        ret true.

(** The loop of [parse_arguments] over the flags.  The script reverses
    [argv] and pops from its end, which takes the arguments in the order
    of the command line. *)
Fixpoint parse_arguments_flags (argv : list string) (arguments : Options)
  : M (option Options) :=
  match argv with
  | [] => ret (Some arguments)
  | arg :: argv' =>
      if ("-h" =? arg)%string then ret None
      else if ("-r" =? arg)%string then
        parse_arguments_flags argv'
          {| username := username arguments; password := password arguments;
             remove := true; shutdown := shutdown arguments;
             verbose_option := verbose_option arguments |}
      else if ("-s" =? arg)%string then
        parse_arguments_flags argv'
          {| username := username arguments; password := password arguments;
             remove := remove arguments; shutdown := true;
             verbose_option := verbose_option arguments |}
      else if ("-v" =? arg)%string then
        set_verbose ;;
        parse_arguments_flags argv'
          {| username := username arguments; password := password arguments;
             remove := remove arguments; shutdown := shutdown arguments;
             verbose_option := true |}
      else
        print ("Unknown argument: " ++ arg ++ " " ++ newline) ;;
        ret None
  end.

(** [parse_arguments(argv)]; the result [False] is [None]. *)
Definition parse_arguments (argv : list string) : M (option Options) :=
  match argv with
  | _script :: user :: pass :: flags =>
      parse_arguments_flags flags
        {| username := user; password := pass;
           remove := false; shutdown := false; verbose_option := false |}
  | _ => ret None
  end.

(** The usage text of [print_help]. *)
Definition usage : string :=
  "Usage:" ++ String Py.lf
  "python3 update.py $username $password [arguments]" ++ String Py.lf (String Py.lf
  "Arguments") ++ String Py.lf
  "-h  help        Display help" ++ String Py.lf
  "-r  remove      Autoremove packages" ++ String Py.lf
  "-s  shutdown    Shutdown host once finished" ++ String Py.lf
  "-v  verbose     Print detailed information".

(** [print_help()] *)
Definition print_help : M unit :=
  print usage ;;
  exit.

(** The loop of [main] over the indices of the machines. *)
Fixpoint main_machines (fuel : nat) (args : Options) (i : nat)
    (machines : list Machine) : M unit :=
  match machines with
  | [] => ret tt
  | vm :: rest =>
      print "" ;;
      print ("Updating " ++ Py.str_of_nat i ++ " " ++ name vm) ;;
      success <- update fuel vm args ;;
      print_if_verbose (if success then "Update successful" else "Update failed") ;;
      main_machines fuel args (S i) rest
  end.

(** [main()]; the result is [Some false] for [return False] and [None]
    when the function ends without a return statement. *)
Definition main (fuel : nat) (argv : list string) : M (option bool) :=
  args <- parse_arguments argv ;;
  match args with
  | None =>
      print_help ;;
      ret (Some false)
  | Some args =>
      listing <- vboxmanage "list vms" ;;
      machines <- lift (parse_machines listing) ;;
      match machines with
      | None => lift (Raise TypeError)
      | Some machines =>
          print (Py.str_of_nat (List.length machines) ++ " found") ;;
          main_machines fuel args 0 machines ;;
          (if shutdown args then
             if ("Windows" =? get_host_os)%string
             then spawn "shutdown /s /t 60"
             else spawn "shutdown"
           else ret tt) ;;
          ret None
      end
  end.

End Program.

(** * Vocabulary of the statements *)

(** A line of a machine-info dump: the key, an equals sign, and the value
    between double quotes. *)
Definition property_line (kv : string * string) : string :=
  fst kv ++ "=" ++ Py.dq ++ snd kv ++ Py.dq.

(** The dump made of the given properties, one per line. *)
Definition machine_info (props : list (string * string)) : string :=
  Py.join newline (map property_line props).

(** The message of the exception raised for a property that is not found. *)
Definition not_found (property : string) : exn :=
  Exception ("find_property_value() - Property '" ++ property ++ "' not found").

(** A property a dump can hold: no double quote in the key, and no line
    separator inside the line. *)
Definition well_formed_property (kv : string * string) : Prop :=
  Py.contains Py.dq (fst kv) = false /\
  Py.contains newline (property_line kv) = false.

(** A line that the loop of [parse_machines] accepts: not empty, and of the
    known format. *)
Definition accepted_line (line : string) : Prop :=
  line <> "" /\ known_format line = true.

(** The exception of [parse_machines]. *)
Definition unknown_format : exn :=
  Exception "Command 'list vms' returned unknown format".

(** A line of the listing as VBoxManage prints it: the quoted name, a
    space, the identifier between braces. *)
Definition listing_line (vm : Machine) : string :=
  Py.dq ++ name vm ++ Py.dq ++ " {" ++ uuid vm ++ "}".

(** The privilege wrapper that [get_update_command] puts before an
    invocation: the password is piped to sudo. *)
Definition wrapper (args : Options) : string :=
  "echo " ++ password args ++ " | sudo -S".

(** The manager invocations the specification asks for: update and upgrade
    for apt, its autoremove if configured, refresh for snap. *)
Definition manager_invocations (apt snap autoremove : bool) : list string :=
  ((if apt
    then ["apt update"; "apt upgrade -y"]
           ++ (if autoremove then ["apt autoremove -y"] else [])
    else [])
   ++ (if snap then ["snap refresh"] else []))%list.

(** The invocations chained with the shell conjunction, each behind the
    wrapper, and in front of a last step. *)
Fixpoint chain (wrap : string) (invocations : list string) (last : string)
  : string :=
  match invocations with
  | [] => last
  | invocation :: rest =>
      wrap ++ " " ++ invocation ++ " && " ++ chain wrap rest last
  end.

(** The last step of every guest command. *)
Definition echo_sentinel : string := "echo " ++ flag.

(** The command line that [vboxmanage] runs for a command. *)
Definition command_line (platform command : string) : string :=
  (if ("Windows" =? get_host_os platform)%string
   then Py.dq ++ "C:/Program Files/Oracle/VirtualBox/VBoxManage.exe" ++ Py.dq
   else "VBoxManage")
  ++ " " ++ command.

(** What the caller of [vboxmanage] receives from the tool: its output
    followed by its errors. *)
Definition tool_output (popen : list event -> string -> string * string)
    (h : list event) (cmdline : string) : string :=
  let (out, err) := popen h cmdline in out ++ err.

(** The commands that [update] hands to [vboxmanage]. *)
Definition showvminfo (vm : Machine) : string :=
  "showvminfo " ++ uuid vm ++ " --machinereadable".

Definition startvm (vm : Machine) : string :=
  "startvm " ++ uuid vm.

Definition acpipowerbutton (vm : Machine) : string :=
  "controlvm " ++ uuid vm ++ " acpipowerbutton".

Definition guestcontrol (vm : Machine) (args : Options) (command : string) : string :=
  "guestcontrol " ++ uuid vm ++ " --username " ++ username args
  ++ " --password " ++ password args
  ++ "run --exe " ++ Py.dq ++ "/bin/sh" ++ Py.dq
  ++ " -- " ++ Py.dq ++ "/bin/sh" ++ Py.dq
  ++ " " ++ Py.dq ++ "-c" ++ Py.dq
  ++ " " ++ Py.dq ++ command ++ Py.dq.

(** The world after [print_if_verbose(message)]. *)
Definition narrate (message : string) (w : World) : World :=
  if verbose w
  then {| verbose := verbose w; stdout := stdout w ++ [message];
          history := history w; inspected := inspected w |}
  else w.

(** The world after one more text was searched for the sentinel. *)
Definition note (text : string) (w : World) : World :=
  {| verbose := verbose w; stdout := stdout w;
     history := history w; inspected := inspected w ++ [text] |}.

(** One dispatch attempt, as the tool answered it: the answers to the two
    probes and to the update command. *)
Record attempt : Type := mkAttempt {
  which_apt : string;
  which_snap : string;
  dispatched : string
}.

(** The guest command of an attempt: a manager is present when its probe
    was answered with any text. *)
Definition update_command (args : Options) (a : attempt) : string :=
  chain (wrapper args)
        (manager_invocations (Py.truthy (which_apt a)) (Py.truthy (which_snap a))
                             (remove args))
        echo_sentinel.

(** The three guest commands of an attempt. *)
Definition attempt_runs (platform : string) (vm : Machine) (args : Options)
    (a : attempt) : list event :=
  [ERun (command_line platform (guestcontrol vm args "which apt")) (which_apt a);
   ERun (command_line platform (guestcontrol vm args "which snap")) (which_snap a);
   ERun (command_line platform (guestcontrol vm args (update_command args a)))
        (dispatched a)].

(** The events of an attempt in the dispatch loop: its guest commands, and
    the back-off when the answer carries the error marker. *)
Definition attempt_trace (platform : string) (vm : Machine) (args : Options)
    (a : attempt) : list event :=
  (attempt_runs platform vm args a
   ++ (if Py.contains "error:" (dispatched a) then [ESleep 30] else []))%list.

(** The attempt that the tool answers after the events [h]. *)
Definition next_attempt (platform : string)
    (popen : list event -> string -> string * string)
    (vm : Machine) (args : Options) (h : list event) : attempt :=
  let run h command := tool_output popen h (command_line platform command) in
  let apt_line := guestcontrol vm args "which apt" in
  let snap_line := guestcontrol vm args "which snap" in
  let r_apt := run h apt_line in
  let h1 := (h ++ [ERun (command_line platform apt_line) r_apt])%list in
  let r_snap := run h1 snap_line in
  let h2 := (h1 ++ [ERun (command_line platform snap_line) r_snap])%list in
  let a := {| which_apt := r_apt; which_snap := r_snap; dispatched := "" |} in
  {| which_apt := r_apt;
     which_snap := r_snap;
     dispatched := run h2 (guestcontrol vm args (update_command args a)) |}.

(** An event of the power-off wait of [update]: a state query or the
    pause between two queries. *)
Definition poll_event (platform : string) (vm : Machine) (e : event) : Prop :=
  e = ESleep 15 \/ exists text, e = ERun (command_line platform (showvminfo vm)) text.

(** The events of [update] before its dispatch loop: the state query,
    and, for an eligible machine, the start command and the wait for the
    boot. *)
Definition boot_events (platform : string) (vm : Machine) (pre : list event) : Prop :=
  exists info,
    pre = [ERun (command_line platform (showvminfo vm)) info] \/
    exists answer,
      pre = [ERun (command_line platform (showvminfo vm)) info;
             ERun (command_line platform (startvm vm)) answer;
             ESleep 60].

(** The events of [update] after its completion loop: none yet, or the
    power button, the settle delay and the power-off wait. *)
Definition shutdown_events (platform : string) (vm : Machine) (post : list event)
  : Prop :=
  post = [] \/
  exists out polls,
    post = ERun (command_line platform (acpipowerbutton vm)) out :: ESleep 30 :: polls /\
    Forall (poll_event platform vm) polls.

(** The end of [update], from the power-off wait on. *)
Definition update_power_off (platform : string)
    (popen : list event -> string -> string * string)
    (fuel : nat) (vm : Machine) : M bool :=
  (update_shutdown platform popen fuel vm ;;
   print_if_verbose "Shutdown complete" ;;
   ret true)%prog.

(** The part of [update] that follows an acknowledged start; [answer] is
    the answer to the start command. *)
Definition update_started (platform : string)
    (popen : list event -> string -> string * string)
    (fuel : nat) (vm : Machine) (args : Options) (answer : string) : M bool :=
  (l <- update_dispatch platform popen fuel vm args
         {| attempt_count := 0; error_detected := false; response := answer |} ;;
   let l := reset_attempt_count l in
   msg <- lift (Py.format "Update command {0}"
                  [if error_detected l then "failed" else "run"]) ;;
   print_if_verbose msg ;;
   print_if_verbose "Waiting for update to finish" ;;
   l <- update_completion fuel l ;;
   msg <- lift (Py.format "Update {0}"
                  [if error_detected l then "timed out" else "completed"]) ;;
   print_if_verbose msg ;;
   print_if_verbose "Shutting down machine" ;;
   off <- lift (Py.format "controlvm {0} acpipowerbutton" [uuid vm]) ;;
   _ <- vboxmanage platform popen off ;;
   sleep 30 ;;
   update_shutdown platform popen fuel vm ;;
   print_if_verbose "Shutdown complete" ;;
   ret true)%prog.

(** The state query that opens [update], and the world after it. *)
Definition first_info (platform : string)
    (popen : list event -> string -> string * string)
    (vm : Machine) (w : World) : string :=
  tool_output popen (history w) (command_line platform (showvminfo vm)).

Definition queried (platform : string)
    (popen : list event -> string -> string * string)
    (vm : Machine) (w : World) : World :=
  record (ERun (command_line platform (showvminfo vm)) (first_info platform popen vm w)) w.

(** The answer to the start command of [update], and the world after the
    wait that follows it. *)
Definition start_answer (platform : string)
    (popen : list event -> string -> string * string)
    (vm : Machine) (w : World) : string :=
  tool_output popen (history (queried platform popen vm w))
              (command_line platform (startvm vm)).

Definition booted (platform : string)
    (popen : list event -> string -> string * string)
    (vm : Machine) (w : World) : World :=
  record (ESleep 60)
    (record (ERun (command_line platform (startvm vm)) (start_answer platform popen vm w))
       (narrate "Starting machine" (queried platform popen vm w))).

(** The machine reports the state poweroff for the first time at the query
    number [n], counted from zero, of a power-off wait that starts in the
    world [w]. *)
Fixpoint powers_off_at (platform : string)
    (popen : list event -> string -> string * string)
    (vm : Machine) (n : nat) (w : World) : Prop :=
  match n with
  | 0 =>
      find_property_value (first_info platform popen vm w) "VMState" = Ok "poweroff"
  | S n' =>
      (exists state,
         find_property_value (first_info platform popen vm w) "VMState" = Ok state /\
         state <> "poweroff") /\
      powers_off_at platform popen vm n'
        (record (ESleep 15) (queried platform popen vm w))
  end.

(** The machine passes the two tests of [update]: it reports the state
    poweroff and a guest type other than the word Windows. *)
Definition eligible (platform : string)
    (popen : list event -> string -> string * string)
    (vm : Machine) (w : World) : Prop :=
  find_property_value (first_info platform popen vm w) "VMState" = Ok "poweroff" /\
  exists ostype,
    find_property_value (first_info platform popen vm w) "ostype" = Ok ostype /\
    ostype <> "Windows".

(** The start command was acknowledged. *)
Definition started (platform : string)
    (popen : list event -> string -> string * string)
    (vm : Machine) (w : World) : Prop :=
  Py.contains "successfully started" (start_answer platform popen vm w) = true.

(** How often the completion loop of [update] searches the response [r]
    kept from the dispatch loop, and how often it waits: not at all after
    a dispatch error, once and without a wait when the sentinel is there,
    and twenty times otherwise. *)
Definition searches (r : string) : nat :=
  if Py.contains "error:" r then 0
  else if Py.contains flag r then 1
  else 20.

Definition waits (r : string) : nat :=
  if Py.contains "error:" r then 0
  else if Py.contains flag r then 0
  else 20.

(** ** Stubs of the external tool *)

(** A machine, the options and the initial world of the examples. *)
Definition web : Machine :=
  {| name := "web"; uuid := "0a1b-2c3d-4e5f-6071-8293" |}.

Definition admin : Options :=
  {| username := "admin"; password := "hunter2";
     remove := false; shutdown := false; verbose_option := true |}.

Definition quiet : World :=
  {| verbose := false; stdout := []; history := []; inspected := [] |}.

Definition chatty : World :=
  {| verbose := true; stdout := []; history := []; inspected := [] |}.

(** A tool that always answers the same way: the listing holds the one
    machine [web]; the machine reports the given state and guest type; the
    start is acknowledged; every guest command gets the answer [guest]. *)
Definition stub (state ostype : string) (guest : string * string)
  : list event -> string -> string * string :=
  fun _ cmdline =>
    if Py.startswith cmdline "VBoxManage list vms" then
      (listing_line web ++ newline, "")
    else if Py.startswith cmdline "VBoxManage showvminfo " then
      (machine_info [("VMState", state); ("ostype", ostype)] ++ newline, "")
    else if Py.startswith cmdline "VBoxManage startvm " then
      ("VM " ++ Py.dq ++ "web" ++ Py.dq ++ " has been successfully started."
       ++ newline, "")
    else if Py.startswith cmdline "VBoxManage guestcontrol " then guest
    else ("", "").

(** The answer of VBoxManage while the guest additions are not running. *)
Definition not_ready : string * string :=
  ("", "VBoxManage: error: The guest execution service is not ready (yet).").

(** The answer to a guest command that ran to its last step: the sentinel
    that the command echoes. *)
Definition finished : string * string :=
  (flag ++ newline, "").

(** The answer to a guest command that ran to its last step while the tool
    complained: the sentinel on the output, the error marker on the
    errors. *)
Definition finished_with_complaint : string * string :=
  (flag ++ newline,
   "VBoxManage: error: Waiting for guest process failed: The guest did not respond").

(** ** Vocabulary of the further properties *)

(** A flag after which [parse_arguments] goes on: remove, shutdown or
    verbose. *)
Definition recognised (arg : string) : bool :=
  ("-r" =? arg)%string || ("-s" =? arg)%string || ("-v" =? arg)%string.

(** The flag is among the arguments. *)
Definition given (arg : string) (flags : list string) : bool :=
  existsb (String.eqb arg) flags.

(** The options after the flags were read: each flag switches its option
    on. *)
Definition with_flags (flags : list string) (arguments : Options) : Options :=
  {| username := username arguments;
     password := password arguments;
     remove := remove arguments || given "-r" flags;
     shutdown := shutdown arguments || given "-s" flags;
     verbose_option := verbose_option arguments || given "-v" flags |}.

(** The world with the global [verbose] set to [b]. *)
Definition with_verbose (b : bool) (w : World) : World :=
  {| verbose := b; stdout := stdout w;
     history := history w; inspected := inspected w |}.

(** The world with one more line printed. *)
Definition printed (msg : string) (w : World) : World :=
  {| verbose := verbose w; stdout := stdout w ++ [msg];
     history := history w; inspected := inspected w |}.

(** The listing as the tool prints it: every machine on a line of its
    own, each line ended by the line separator. *)
Definition listing_text (vms : list Machine) : string :=
  Py.join newline (map listing_line vms ++ [""])%list.

(** A machine whose line of the listing [parse_machines] accepts: no
    double quote in the name, the counts of the format test, and no line
    separator inside the line. *)
Definition printable (vm : Machine) : Prop :=
  Py.contains Py.dq (name vm) = false /\
  known_format (listing_line vm) = true /\
  Py.contains newline (listing_line vm) = false.

(** A tool that reports the machine powered off with a Linux guest and
    answers every other command, the start included, with an error. *)
Definition locked : list event -> string -> string * string :=
  fun _ cmdline =>
    if Py.startswith cmdline "VBoxManage showvminfo " then
      (machine_info [("VMState", "poweroff"); ("ostype", "Ubuntu_64")] ++ newline, "")
    else
      ("", "VBoxManage: error: The machine is already locked by a session").

(** The power button was sent: the events hold a run of controlvm. *)
Definition button_sent (h : list event) : bool :=
  existsb (fun e => match e with
                    | ERun cmdline _ => Py.startswith cmdline "VBoxManage controlvm "
                    | _ => false
                    end) h.

(** A tool whose guest commands run to their last step, and which no
    longer finds the machine once the power button was sent: the state
    query is then answered with an error message and no property line. *)
Definition lost_after_button : list event -> string -> string * string :=
  fun h cmdline =>
    if Py.startswith cmdline "VBoxManage showvminfo " then
      if button_sent h
      then ("", "VBoxManage: error: Could not find a registered machine")
      else (machine_info [("VMState", "poweroff"); ("ostype", "Ubuntu_64")] ++ newline, "")
    else if Py.startswith cmdline "VBoxManage startvm " then
      ("VM " ++ Py.dq ++ "web" ++ Py.dq ++ " has been successfully started."
       ++ newline, "")
    else if Py.startswith cmdline "VBoxManage guestcontrol " then finished
    else ("", "").

(** The answer to an attempt carries the error marker. *)
Definition marked (a : attempt) : Prop :=
  Py.contains "error:" (dispatched a) = true.

(** A computation keeps a relation between the world it starts in and the
    world it leaves. *)
Definition respects (R : World -> World -> Prop) {A} (m : M A) : Prop :=
  forall w, R w (snd (m w)).

(** An event of the hypervisor protocol: a run of the VBoxManage binary
    of the platform, or a sleep; starting another process is none. *)
Definition tool_or_sleep (platform : string) (e : event) : Prop :=
  match e with
  | ERun cmdline _ => exists command, cmdline = command_line platform command
  | ESleep _ => True
  | ESpawn _ => False
  end.

(** The history of [w'] is that of [w] followed by events that all
    satisfy [Q]. *)
Definition grows_by (Q : event -> Prop) (w w' : World) : Prop :=
  exists events, history w' = (history w ++ events)%list /\ Forall Q events.

(** From a world with the global [verbose] off, nothing was printed and
    the flag is still off. *)
Definition stays_quiet (w w' : World) : Prop :=
  verbose w = false -> verbose w' = false /\ stdout w' = stdout w.

(** A computation that neither reads the verbosity flag nor what was
    printed: from two worlds with the same history it gives the same
    result and the same history. *)
Definition oblivious {A} (m : M A) : Prop :=
  forall w1 w2,
    history w1 = history w2 ->
    fst (m w1) = fst (m w2) /\
    history (snd (m w1)) = history (snd (m w2)).


(** The command that [main] starts to shut the host down. *)
Definition host_shutdown (platform : string) : string :=
  if ("Windows" =? get_host_os platform)%string
  then "shutdown /s /t 60"
  else "shutdown".

(** * Facts about the string primitives *)

Module PyFacts.
Import Py.

Lemma append_assoc (a b c : string) : (a ++ b) ++ c = a ++ b ++ c.
Proof. induction a as [|x a IH]; simpl; [reflexivity | now rewrite IH]. Qed.

Lemma append_nil_r (a : string) : a ++ "" = a.
Proof. induction a as [|x a IH]; simpl; [reflexivity | now rewrite IH]. Qed.

Lemma length_append (a b : string) :
  String.length (a ++ b) = String.length a + String.length b.
Proof. induction a as [|x a IH]; simpl; [reflexivity | now rewrite IH]. Qed.

Lemma take_length (s : string) : take (String.length s) s = s.
Proof. induction s as [|x s IH]; simpl; [reflexivity | now rewrite IH]. Qed.

Lemma take_append (a b : string) : take (String.length a) (a ++ b) = a.
Proof. induction a as [|x a IH]; simpl; [now destruct b | now rewrite IH]. Qed.

Lemma drop_append (a b : string) (n : nat) :
  drop (String.length a + n) (a ++ b) = drop n b.
Proof. induction a as [|x a IH]; simpl; [reflexivity | exact IH]. Qed.

Lemma drop_append_length (a b : string) : drop (String.length a) (a ++ b) = b.
Proof.
  rewrite <- (Nat.add_0_r (String.length a)), drop_append. reflexivity.
Qed.

Lemma length_drop (n : nat) (s : string) :
  String.length (drop n s) = String.length s - n.
Proof.
  revert s; induction n as [|n IH]; intros [|x s]; simpl; auto.
Qed.

(** One step of [String.index] from position 0. *)
Lemma index_cons (sub : string) (x : ascii) (s : string) :
  String.index 0 sub (String x s) =
  if String.prefix sub (String x s) then Some 0
  else option_map S (String.index 0 sub s).
Proof.
  simpl. destruct (String.prefix sub (String x s)); [reflexivity|].
  destruct (String.index 0 sub s); reflexivity.
Qed.

(** [String.prefix] by cases, with the boolean equality of characters. *)
Lemma prefix_nil_l (s : string) : String.prefix "" s = true.
Proof. now destruct s. Qed.

Lemma prefix_nil_r (a : ascii) (s : string) : String.prefix (String a s) "" = false.
Proof. reflexivity. Qed.

Lemma prefix_cons (a b : ascii) (s1 s2 : string) :
  String.prefix (String a s1) (String b s2) = (a =? b)%char && String.prefix s1 s2.
Proof.
  simpl. destruct (ascii_dec a b) as [->|N].
  - now rewrite Ascii.eqb_refl.
  - apply Ascii.eqb_neq in N. now rewrite N.
Qed.

Lemma prefix_append (a b : string) : String.prefix a (a ++ b) = true.
Proof.
  induction a as [|x a IH]; [apply prefix_nil_l|].
  change (String x a ++ b) with (String x (a ++ b)).
  now rewrite prefix_cons, Ascii.eqb_refl, IH.
Qed.

(** A string that lacks the character [c] cannot reach over an
    occurrence of [c]. *)
Lemma prefix_append_sep (c : ascii) (sub a b : string) :
  has_char c sub = false ->
  String.prefix sub (a ++ String c b) = String.prefix sub a.
Proof.
  revert sub; induction a as [|x a IH]; intros [|y sub] H.
  - reflexivity.
  - simpl in H. apply orb_false_iff in H as [H _].
    change ("" ++ String c b) with (String c b).
    now rewrite prefix_cons, H, prefix_nil_r.
  - now rewrite !prefix_nil_l.
  - simpl in H. apply orb_false_iff in H as [_ H].
    change (String x a ++ String c b) with (String x (a ++ String c b)).
    now rewrite !prefix_cons, (IH sub H).
Qed.

Lemma contains_cons (sub : string) (x : ascii) (s : string) :
  contains sub (String x s) = String.prefix sub (String x s) || contains sub s.
Proof.
  unfold contains. rewrite index_cons.
  destruct (String.prefix sub (String x s)); [reflexivity|].
  destruct (String.index 0 sub s); reflexivity.
Qed.

Lemma contains_nil (sub : string) : contains sub "" = String.prefix sub "".
Proof. destruct sub; reflexivity. Qed.

(** Splitting a search at a character that the searched text lacks. *)
Lemma contains_append_sep (c : ascii) (sub a b : string) :
  has_char c sub = false ->
  contains sub (a ++ String c b) = contains sub a || contains sub b.
Proof.
  intros H. induction a as [|x a IH].
  - change ("" ++ String c b) with (String c b).
    rewrite contains_cons, contains_nil.
    now rewrite <- (prefix_append_sep c sub "" b H).
  - change (String x a ++ String c b) with (String x (a ++ String c b)).
    rewrite !contains_cons, IH.
    change (String x (a ++ String c b)) with (String x a ++ String c b).
    rewrite (prefix_append_sep c sub (String x a) b H).
    now rewrite orb_assoc.
Qed.

Lemma prefix_append_l (sub a b : string) :
  String.prefix sub a = true -> String.prefix sub (a ++ b) = true.
Proof.
  revert a; induction sub as [|y sub IH]; intros [|x a] H.
  - apply prefix_nil_l.
  - apply prefix_nil_l.
  - discriminate.
  - change (String x a ++ b) with (String x (a ++ b)).
    rewrite prefix_cons in *. apply andb_true_iff in H as [-> H].
    now rewrite (IH a H).
Qed.

Lemma contains_append_l (sub a b : string) :
  contains sub a = true -> contains sub (a ++ b) = true.
Proof.
  induction a as [|x a IH].
  - rewrite contains_nil. destruct sub; [|discriminate].
    intros _. now destruct b.
  - change (String x a ++ b) with (String x (a ++ b)).
    rewrite !contains_cons. intros H. apply orb_true_iff in H as [H|H].
    + apply orb_true_iff; left.
      now apply (prefix_append_l sub (String x a) b).
    + apply orb_true_iff; right. now apply IH.
Qed.

Lemma contains_append_r (sub a b : string) :
  contains sub b = true -> contains sub (a ++ b) = true.
Proof.
  intros H. induction a as [|x a IH]; [exact H|].
  change (String x a ++ b) with (String x (a ++ b)).
  rewrite contains_cons, IH. apply orb_true_r.
Qed.

Lemma contains_here (sub b : string) : contains sub (sub ++ b) = true.
Proof.
  unfold contains. destruct (sub ++ b) as [|x s] eqn:E.
  - destruct sub; [reflexivity | discriminate].
  - rewrite index_cons, <- E, prefix_append. reflexivity.
Qed.

(** ** The line separator *)

(** The first occurrence of the two-character separator in a text that
    starts with a separator-free line. *)
Lemma index_newline_append (l rest : string) :
  String.index 0 newline l = None ->
  String.index 0 newline (l ++ newline ++ rest) = Some (String.length l).
Proof.
  induction l as [|a l IH]; intros H.
  - change ("" ++ newline ++ rest) with (String cr (String lf rest)).
    rewrite index_cons. unfold newline.
    now rewrite !prefix_cons, !Ascii.eqb_refl, prefix_nil_l.
  - rewrite index_cons in H.
    destruct (String.prefix newline (String a l)) eqn:P; [discriminate|].
    destruct (String.index 0 newline l) eqn:I; [discriminate|].
    change (String a l ++ newline ++ rest)
      with (String a (l ++ newline ++ rest)).
    rewrite index_cons, (IH eq_refl).
    replace (String.prefix newline (String a (l ++ newline ++ rest)))
      with false; [reflexivity|].
    symmetry. unfold newline in *. destruct l as [|b l].
    + change ("" ++ String cr (String lf "") ++ rest)
        with (String cr (String lf rest)).
      rewrite !prefix_cons. change (lf =? cr)%char with false.
      now rewrite andb_false_r.
    + change (String b l ++ String cr (String lf "") ++ rest)
        with (String b (l ++ String cr (String lf "") ++ rest)).
      rewrite !prefix_cons, prefix_nil_l in *. exact P.
Qed.

Lemma split_from_S (fuel : nat) (s sep : string) :
  split_from (S fuel) s sep =
  match String.index 0 sep s with
  | Some i => take i s :: split_from fuel (drop (i + String.length sep) s) sep
  | None => [s]
  end.
Proof. reflexivity. Qed.

(** [split] undoes [join] when no piece holds the separator. *)
Lemma split_from_join (pieces : list string) :
  pieces <> [] ->
  Forall (fun l => String.index 0 newline l = None) pieces ->
  forall fuel, String.length (join newline pieces) <= fuel ->
  split_from fuel (join newline pieces) newline = pieces.
Proof.
  induction pieces as [|l pieces IH]; [congruence|].
  intros _ H fuel Hf. inversion H as [|? ? Hl Hrest]; subst.
  destruct pieces as [|l' pieces].
  - change (join newline [l]) with l.
    destruct fuel; [reflexivity|]. now rewrite split_from_S, Hl.
  - change (join newline (l :: l' :: pieces))
      with (l ++ newline ++ join newline (l' :: pieces)) in *.
    rewrite !length_append in Hf. change (String.length newline) with 2 in Hf.
    destruct fuel as [|fuel]; [lia|].
    rewrite split_from_S, (index_newline_append _ _ Hl).
    rewrite take_append, drop_append.
    change (drop (String.length newline) (newline ++ join newline (l' :: pieces)))
      with (join newline (l' :: pieces)).
    f_equal. apply IH; [discriminate | assumption | lia].
Qed.

Lemma split_join (pieces : list string) :
  pieces <> [] ->
  Forall (fun l => String.index 0 newline l = None) pieces ->
  split (join newline pieces) newline = pieces.
Proof.
  intros Hne H. unfold split. now apply split_from_join.
Qed.

(** ** Slices *)

(** [(a ++ v ++ c)[len(a):-1]] is [v]. *)
Lemma slice_between (a v : string) (c : ascii) :
  slice (Some (Z.of_nat (String.length a))) (Some (-1)%Z)
    (a ++ v ++ String c "") = v.
Proof.
  unfold slice, bound. rewrite !length_append. simpl String.length.
  destruct (Z.of_nat (String.length a) <? 0)%Z eqn:E;
    [apply Z.ltb_lt in E; lia|].
  change (-1 <? 0)%Z with true. cbv iota.
  rewrite Nat2Z.id.
  replace (Nat.min (String.length a) (String.length a + (String.length v + 1)))
    with (String.length a) by lia.
  replace (Z.to_nat (Z.max 0 (-1 + Z.of_nat (String.length a + (String.length v + 1))))
           - String.length a) with (String.length v) by lia.
  rewrite drop_append_length. apply take_append.
Qed.

(** [s[1:]] drops the first character. *)
Lemma slice_tail (x : ascii) (s : string) :
  slice (Some 1%Z) None (String x s) = s.
Proof.
  unfold slice, bound. simpl String.length.
  change (1 <? 0)%Z with false. cbv iota.
  replace (Nat.min (Z.to_nat 1) (S (String.length s))) with 1 by lia.
  replace (S (String.length s) - 1) with (String.length s) by lia.
  simpl drop. apply take_length.
Qed.

(** [(a ++ b)[:len(a)]] is [a]. *)
Lemma slice_front (a b : string) :
  slice None (Some (Z.of_nat (String.length a))) (a ++ b) = a.
Proof.
  unfold slice, bound. rewrite length_append.
  destruct (Z.of_nat (String.length a) <? 0)%Z eqn:E;
    [apply Z.ltb_lt in E; lia|].
  rewrite Nat2Z.id.
  replace (Nat.min (String.length a) (String.length a + String.length b) - 0)
    with (String.length a) by lia.
  simpl drop. apply take_append.
Qed.

(** The first occurrence of a character that the front of the text lacks. *)
Lemma index_char_append (c : ascii) (a b : string) :
  has_char c a = false ->
  String.index 0 (String c "") (a ++ String c b) = Some (String.length a).
Proof.
  induction a as [|x a IH]; intros H.
  - change ("" ++ String c b) with (String c b).
    now rewrite index_cons, prefix_cons, Ascii.eqb_refl, prefix_nil_l.
  - simpl in H. apply orb_false_iff in H as [Hx Ha].
    change (String x a ++ String c b) with (String x (a ++ String c b)).
    rewrite index_cons, (IH Ha), prefix_cons.
    now rewrite Ascii.eqb_sym, Hx.
Qed.

End PyFacts.

(** * The property-value extractor *)

Section FindPropertyValue.
Import Py PyFacts.

Lemma contains_char (c : ascii) (s : string) :
  contains (String c "") s = has_char c s.
Proof.
  induction s as [|x s IH]; [reflexivity|].
  rewrite contains_cons, prefix_cons, prefix_nil_l, IH, andb_true_r.
  simpl. now rewrite Ascii.eqb_sym.
Qed.

Lemma has_char_append (c : ascii) (a b : string) :
  has_char c (a ++ b) = has_char c a || has_char c b.
Proof.
  induction a as [|x a IH]; simpl; [reflexivity|].
  now rewrite IH, orb_assoc.
Qed.

Lemma contains_false_index (sub s : string) :
  contains sub s = false -> String.index 0 sub s = None.
Proof. unfold contains. now destruct (String.index 0 sub s). Qed.

(** The value read from a line [key="value"]. *)
Lemma property_line_value (k v : string) :
  contains dq k = false ->
  (i <- Py.index (property_line (k, v)) dq ;;
   Ok (slice (Some (Z.of_nat i + 1)%Z) (Some (-1)%Z) (property_line (k, v))))%result
  = Ok v.
Proof.
  intros Hk. unfold dq in Hk. rewrite contains_char in Hk.
  unfold property_line, Py.index. cbn [fst snd].
  replace (k ++ "=" ++ dq ++ v ++ dq)
    with ((k ++ "=") ++ String dquote (v ++ dq))
    by (now rewrite append_assoc).
  unfold dq at 1. rewrite index_char_append
    by (rewrite has_char_append, Hk; reflexivity).
  cbn [rbind].
  replace ((k ++ "=") ++ String dquote (v ++ dq))
    with ((k ++ "=" ++ dq) ++ v ++ String dquote "")
    by (now rewrite !append_assoc).
  replace (Z.of_nat (String.length (k ++ "=")) + 1)%Z
    with (Z.of_nat (String.length (k ++ "=" ++ dq)))
    by (rewrite !length_append; simpl String.length; lia).
  now rewrite slice_between.
Qed.

Lemma find_property_value_lines_props (props : list (string * string))
    (key : string) :
  Forall well_formed_property props ->
  find_property_value_lines (map property_line props) key =
  match find (fun kv => startswith (property_line kv) key) props with
  | Some kv => Ok (snd kv)
  | None => Raise (not_found key)
  end.
Proof.
  induction 1 as [|[k v] props [Hk _] _ IH]; [reflexivity|].
  cbn [map find find_property_value_lines].
  destruct (startswith (property_line (k, v)) key); [|exact IH].
  now apply property_line_value.
Qed.

End FindPropertyValue.

(** C7, as amended.  On a dump made of one or more [key="value"] lines,
    [find_property_value] returns the value, without its quotes, of the
    first line whose text starts with the queried text, and raises the
    not-found exception exactly when no line starts with it.  Hence a key
    of the dump yields its own value whenever no earlier line starts with
    that key. *)
Theorem find_property_value_first_match
    (props : list (string * string)) (key : string) :
  props <> [] ->
  Forall well_formed_property props ->
  find_property_value (machine_info props) key =
    match find (fun kv => Py.startswith (property_line kv) key) props with
    | Some kv => Ok (snd kv)
    | None => Raise (not_found key)
    end
  /\ (forall before value after,
        props = (before ++ (key, value) :: after)%list ->
        Forall (fun kv => Py.startswith (property_line kv) key = false) before ->
        find_property_value (machine_info props) key = Ok value).
Proof.
  intros Hne Hwf.
  assert (E : find_property_value (machine_info props) key =
    match find (fun kv => Py.startswith (property_line kv) key) props with
    | Some kv => Ok (snd kv)
    | None => Raise (not_found key)
    end).
  { unfold find_property_value, machine_info.
    rewrite PyFacts.split_join.
    - now apply find_property_value_lines_props.
    - destruct props; [congruence | discriminate].
    - apply Forall_map. eapply Forall_impl; [|exact Hwf].
      intros kv [_ H]. now apply contains_false_index. }
  split; [exact E|].
  intros before value after -> Hbefore. rewrite E. clear E Hne Hwf.
  induction Hbefore as [|kv before Hkv _ IH]; cbn [app find].
  - unfold Py.startswith, property_line. cbn [fst snd].
    now rewrite PyFacts.prefix_append.
  - now rewrite Hkv.
Qed.

Lemma find_property_value_first_match_witness :
  find_property_value
    (machine_info [("VMState", "poweroff"); ("ostype", "Ubuntu_64")]) "ostype"
  = Ok "Ubuntu_64".
Proof.
  apply (proj2 (find_property_value_first_match
                  [("VMState", "poweroff"); ("ostype", "Ubuntu_64")] "ostype"
                  ltac:(discriminate)
                  ltac:(repeat constructor))
               [("VMState", "poweroff")] "Ubuntu_64" []).
  - reflexivity.
  - repeat constructor.
Defined.

(** C7, as stated, fails: the match is on the start of the line.  A key
    of the dump that is the beginning of the key of an earlier line yields
    the value of that earlier line, not its own; and a key that is on no
    line, but begins one, is found instead of raising. *)
Lemma find_property_value_key_counterexample :
  find_property_value
    (machine_info [("VMStateChangeTime", "2024-01-01T00:00:00");
                   ("VMState", "poweroff")]) "VMState"
  = Ok "2024-01-01T00:00:00" /\
  find_property_value (machine_info [("VMState", "poweroff")]) "VM"
  = Ok "poweroff".
Proof. split; vm_compute; reflexivity. Qed.

(** * The machine-listing parser *)

Section ParseMachines.
Import Py PyFacts.

(** A line with two double quotes still has one after its first
    character. *)
Lemma count_two_quotes (line : string) :
  count line dq = 2 ->
  exists x rest i, line = String x rest /\ String.index 0 dq rest = Some i.
Proof.
  destruct line as [|x rest]; [discriminate|].
  intros H. exists x, rest.
  unfold count in H. cbn [String.length count_from] in H.
  rewrite index_cons in H.
  destruct (String.prefix dq (String x rest)).
  - cbn [Nat.add drop String.length dq] in H.
    destruct (String.length rest); [discriminate|].
    cbn [count_from] in H.
    destruct (String.index 0 dq rest) as [i|]; [now exists i | discriminate].
  - destruct (String.index 0 dq rest) as [i|]; [now exists i | discriminate].
Qed.

(** A line of the known format always yields a machine. *)
Lemma parse_machine_total (line : string) :
  known_format line = true -> exists vm, parse_machine line = Ok vm.
Proof.
  unfold known_format. intros H.
  apply andb_true_iff in H as [H _]. apply andb_true_iff in H as [H _].
  apply andb_true_iff in H as [H _]. apply Nat.eqb_eq in H.
  destruct (count_two_quotes line (eq_sym H)) as (x & rest & i & -> & Hi).
  unfold parse_machine. rewrite slice_tail. unfold Py.index. rewrite Hi.
  cbn [rbind]. eauto.
Qed.

(** The machine read from a line as VBoxManage prints it. *)
Lemma parse_machine_listing_line (vm : Machine) :
  contains dq (name vm) = false ->
  parse_machine (listing_line vm) = Ok vm.
Proof.
  intros Hn. unfold dq in Hn. rewrite contains_char in Hn.
  destruct vm as [n u]. cbn [name uuid] in *.
  unfold parse_machine, listing_line. cbn [name uuid].
  change (dq ++ n ++ dq ++ " {" ++ u ++ "}")
    with (String dquote (n ++ dq ++ " {" ++ u ++ "}")).
  rewrite slice_tail. unfold Py.index.
  change (n ++ dq ++ " {" ++ u ++ "}")
    with (n ++ String dquote (" {" ++ u ++ "}")).
  unfold dq at 1 2. rewrite (index_char_append _ _ _ Hn). cbn [rbind].
  rewrite slice_front.
  replace (n ++ String dquote (" {" ++ u ++ "}"))
    with ((n ++ dq ++ " {") ++ u ++ String "}"%char "")
    by (now rewrite !append_assoc).
  replace (Z.of_nat (String.length n) + 3)%Z
    with (Z.of_nat (String.length (n ++ dq ++ " {")))
    by (rewrite !length_append; simpl String.length; lia).
  now rewrite slice_between.
Qed.

(** The loop over a run of accepted lines appends their machines. *)
Lemma parse_machines_lines_accepted (pre : list string) :
  Forall accepted_line pre ->
  exists vms', Forall2 (fun l vm => parse_machine l = Ok vm) pre vms' /\
    forall tail vms,
      parse_machines_lines (pre ++ tail)%list vms =
      parse_machines_lines tail (vms ++ vms')%list.
Proof.
  induction 1 as [|line pre [Hne Hfmt] _ (vms' & Hvms & IH)].
  - exists []. split; [constructor|]. intros tail vms.
    now rewrite app_nil_r.
  - destruct (parse_machine_total line Hfmt) as [vm Hvm].
    exists (vm :: vms'). split; [now constructor|]. intros tail vms.
    cbn [app parse_machines_lines].
    destruct (String.eqb_spec "" line) as [E|_]; [now subst|].
    rewrite Hfmt, Hvm. cbn [negb rbind]. rewrite IH.
    now rewrite <- app_assoc.
Qed.

(** A list is only returned from an empty line. *)
Lemma parse_machines_lines_some (lines : list string) :
  forall vms out,
    parse_machines_lines lines vms = Ok (Some out) ->
    exists pre rest, lines = (pre ++ "" :: rest)%list /\ Forall accepted_line pre.
Proof.
  induction lines as [|line lines IH]; intros vms out H; [discriminate|].
  cbn [parse_machines_lines] in H.
  destruct (String.eqb_spec "" line) as [<-|Hne].
  - exists [], lines. split; [reflexivity | constructor].
  - destruct (known_format line) eqn:Hfmt; [|discriminate].
    cbn [negb] in H. destruct (parse_machine line) as [vm|e]; [|discriminate].
    cbn [rbind] in H. destruct (IH _ _ H) as (pre & rest & -> & Hpre).
    exists (line :: pre), rest. split; [reflexivity|].
    constructor; [|exact Hpre]. split; [congruence | exact Hfmt].
Qed.

End ParseMachines.

(** C6.  [parse_machines] reads the lines in order.  After a run of
    accepted lines, an empty line ends the parse with exactly the machines
    of the lines before it, in order, and a non-empty line that fails the
    format test (two double quotes, four dashes, one opening and one
    closing brace) raises the exception: no list is returned. *)
Theorem parse_machines_fail_fast
    (listing : string) (pre : list string) (line : string) (rest : list string) :
  Py.split listing newline = (pre ++ line :: rest)%list ->
  Forall accepted_line pre ->
  (line = "" ->
     exists vms, parse_machines listing = Ok (Some vms) /\
                 Forall2 (fun l vm => parse_machine l = Ok vm) pre vms) /\
  (line <> "" -> known_format line = false ->
     parse_machines listing = Raise unknown_format).
Proof.
  intros Hsplit Hpre. unfold parse_machines. rewrite Hsplit.
  destruct (parse_machines_lines_accepted pre Hpre) as (vms & Hvms & Hrun).
  rewrite Hrun. cbn [app parse_machines_lines]. split.
  - intros ->. exists vms. now split.
  - intros Hne Hfmt. destruct (String.eqb_spec "" line) as [E|_]; [now subst|].
    now rewrite Hfmt.
Qed.

Lemma parse_machines_fail_fast_witness :
  parse_machines
    (listing_line (mkMachine "web" "0a1b-2c3d-4e5f-6071-8293") ++ newline
     ++ "garbage" ++ newline
     ++ listing_line (mkMachine "db" "aaaa-bbbb-cccc-dddd-eeee") ++ newline)
  = Raise unknown_format.
Proof.
  refine (proj2 (parse_machines_fail_fast _
                   [listing_line (mkMachine "web" "0a1b-2c3d-4e5f-6071-8293")]
                   "garbage"
                   [listing_line (mkMachine "db" "aaaa-bbbb-cccc-dddd-eeee"); ""]
                   _ _) _ _).
  - reflexivity.
  - repeat constructor; discriminate.
  - discriminate.
  - reflexivity.
Defined.

(** C9.  [parse_machines] returns a list only from its empty-line branch:
    when every line is accepted and none is empty, the loop runs off the
    end of the lines and the result is [None], not the machines parsed. *)
Theorem parse_machines_without_empty_line (listing : string) :
  (Forall accepted_line (Py.split listing newline) ->
     parse_machines listing = Ok None) /\
  (forall vms, parse_machines listing = Ok (Some vms) ->
     exists pre rest,
       Py.split listing newline = (pre ++ "" :: rest)%list /\
       Forall accepted_line pre).
Proof.
  split.
  - intros H. unfold parse_machines.
    destruct (parse_machines_lines_accepted _ H) as (vms & _ & Hrun).
    specialize (Hrun [] []). rewrite app_nil_r in Hrun. now rewrite Hrun.
  - intros vms H. now apply (parse_machines_lines_some _ [] vms).
Qed.

Lemma parse_machines_without_empty_line_witness :
  parse_machines
    (listing_line (mkMachine "web" "0a1b-2c3d-4e5f-6071-8293") ++ newline
     ++ listing_line (mkMachine "db" "aaaa-bbbb-cccc-dddd-eeee"))
  = Ok None.
Proof.
  apply (proj1 (parse_machines_without_empty_line _)).
  repeat constructor; discriminate.
Defined.

(** * The guest command *)

Section UpdateCommand.
Import Py PyFacts.

(** The command built for a dict that holds both managers. *)
Lemma get_update_command_chain (managers : Managers) (args : Options)
    (apt snap : bool) :
  dict_get managers "apt" = Ok apt ->
  dict_get managers "snap" = Ok snap ->
  get_update_command managers args =
  Ok (chain (wrapper args) (manager_invocations apt snap (remove args))
        echo_sentinel).
Proof.
  intros Ha Hs. unfold get_update_command. rewrite Ha, Hs.
  destruct apt, snap, (remove args); reflexivity.
Qed.

Lemma wrapper_append (args : Options) (s : string) :
  wrapper args ++ s = "echo " ++ password args ++ " | sudo -S" ++ s.
Proof. unfold wrapper. now rewrite !append_assoc. Qed.

End UpdateCommand.

(** C5.  With snap absent: when apt is present and autoremove is off, the
    guest command is the apt update and the apt upgrade, each behind the
    wrapper, followed by the echo of the sentinel and nothing else, so
    that the word autoremove can only come from the password itself; and
    when apt is absent too, the command is the echo of the sentinel
    alone. *)
Theorem get_update_command_apt_only (managers : Managers) (args : Options) :
  dict_get managers "snap" = Ok false ->
  (dict_get managers "apt" = Ok true -> remove args = false ->
     exists command,
       get_update_command managers args = Ok command /\
       command = wrapper args ++ " apt update && "
                 ++ wrapper args ++ " apt upgrade -y && " ++ echo_sentinel /\
       Py.contains "apt update && " command = true /\
       Py.contains "apt upgrade -y && " command = true /\
       (Py.contains "autoremove" (password args) = false ->
        Py.contains "autoremove" command = false)) /\
  (dict_get managers "apt" = Ok false ->
     get_update_command managers args = Ok echo_sentinel /\
     echo_sentinel <> "").
Proof.
  intros Hsnap. split.
  - intros Hapt Hrm. eexists. split; [|split; [reflexivity|]].
    + rewrite (get_update_command_chain _ _ _ _ Hapt Hsnap), Hrm.
      reflexivity.
    + split; [|split].
      * apply PyFacts.contains_append_r.
        change (" apt update && " ++ wrapper args ++ " apt upgrade -y && " ++ echo_sentinel)
          with (" " ++ "apt update && " ++ wrapper args ++ " apt upgrade -y && " ++ echo_sentinel).
        apply PyFacts.contains_append_r, PyFacts.contains_here.
      * apply PyFacts.contains_append_r.
        change (" apt update && " ++ wrapper args ++ " apt upgrade -y && " ++ echo_sentinel)
          with (" apt update && " ++ wrapper args ++ " " ++ "apt upgrade -y && " ++ echo_sentinel).
        do 3 apply PyFacts.contains_append_r. apply PyFacts.contains_here.
      * intros Hpw.
        rewrite wrapper_append.
        change (" | sudo -S" ++ " apt update && " ++ wrapper args
                ++ " apt upgrade -y && " ++ echo_sentinel)
          with (" | sudo -S apt update && "
                ++ wrapper args ++ " apt upgrade -y && " ++ echo_sentinel).
        rewrite wrapper_append.
        change ("echo " ++ password args ++ " | sudo -S apt update && "
                ++ "echo " ++ password args ++ " | sudo -S"
                ++ " apt upgrade -y && " ++ echo_sentinel)
          with ("echo" ++ String " "%char (password args ++ String " "%char
                ("| sudo -S apt update && echo" ++ String " "%char
                 (password args ++ String " "%char
                  ("| sudo -S apt upgrade -y && " ++ echo_sentinel))))).
        rewrite !(PyFacts.contains_append_sep " "%char "autoremove") by reflexivity.
        rewrite Hpw. reflexivity.
  - intros Hapt. split; [|discriminate].
    now rewrite (get_update_command_chain _ _ _ _ Hapt Hsnap).
Qed.

Lemma get_update_command_apt_only_witness :
  get_update_command [("apt", true); ("snap", false)]
    (mkOptions "admin" "hunter2" false false false)
  = Ok ("echo hunter2 | sudo -S apt update && "
        ++ "echo hunter2 | sudo -S apt upgrade -y && "
        ++ "echo UpdateVirtualBoxMachinesFinalSignalOperationIsComplete").
Proof.
  destruct (proj1 (get_update_command_apt_only [("apt", true); ("snap", false)]
                     (mkOptions "admin" "hunter2" false false false) eq_refl)
                  eq_refl eq_refl)
    as (command & Hcommand & -> & _).
  exact Hcommand.
Defined.

(** C10.  For a dict that holds both managers, the guest command is the
    chain of the invocations of the managers present, each preceded by
    the wrapper that echoes the plaintext password into sudo, and then
    the echo of the sentinel.  With no manager present the command is the
    echo of the sentinel alone: it does not depend on the password and
    holds no sudo. *)
Theorem get_update_command_password (managers : Managers) (args : Options)
    (apt snap : bool) :
  dict_get managers "apt" = Ok apt ->
  dict_get managers "snap" = Ok snap ->
  get_update_command managers args =
    Ok (chain ("echo " ++ password args ++ " | sudo -S")
              (manager_invocations apt snap (remove args))
              echo_sentinel)
  /\ (apt = false -> snap = false ->
      get_update_command managers args = Ok echo_sentinel /\
      Py.contains "sudo" echo_sentinel = false).
Proof.
  intros Hapt Hsnap. split.
  - exact (get_update_command_chain _ _ _ _ Hapt Hsnap).
  - intros -> ->. split; [|reflexivity].
    now rewrite (get_update_command_chain _ _ _ _ Hapt Hsnap).
Qed.

Lemma get_update_command_password_witness :
  get_update_command [("apt", true); ("snap", true)]
    (mkOptions "admin" "hunter2" true false false)
  = Ok ("echo hunter2 | sudo -S apt update && "
        ++ "echo hunter2 | sudo -S apt upgrade -y && "
        ++ "echo hunter2 | sudo -S apt autoremove -y && "
        ++ "echo hunter2 | sudo -S snap refresh && "
        ++ "echo UpdateVirtualBoxMachinesFinalSignalOperationIsComplete").
Proof.
  exact (proj1 (get_update_command_password [("apt", true); ("snap", true)]
                  (mkOptions "admin" "hunter2" true false false) true true
                  eq_refl eq_refl)).
Defined.

(** * Running the effectful code *)

Section Runs.
Variable platform : string.
Variable popen : list event -> string -> string * string.

Lemma bind_run {A B} (m : M A) (f : A -> M B) (w : World) :
  bind m f w =
  match m w with
  | (Returned a, w') => f a w'
  | (Raised e, w') => (Raised e, w')
  | (Pending, w') => (Pending, w')
  end.
Proof. reflexivity. Qed.

Lemma bind_returned {A B} (m : M A) (f : A -> M B) (w w' : World) (a : A) :
  m w = (Returned a, w') -> bind m f w = f a w'.
Proof. intros H. now rewrite bind_run, H. Qed.

Lemma bind_lift_ok {A B} (a : A) (f : A -> M B) (w : World) :
  bind (lift (Ok a)) f w = f a w.
Proof. reflexivity. Qed.

Lemma bind_lift_raise {A B} (e : exn) (f : A -> M B) (w : World) :
  bind (lift (Raise e)) f w = (Raised e, w).
Proof. reflexivity. Qed.

Lemma bind_ret {A B} (a : A) (f : A -> M B) (w : World) :
  bind (ret a) f w = f a w.
Proof. reflexivity. Qed.

Lemma print_if_verbose_run (message : string) (w : World) :
  print_if_verbose message w = (Returned tt, narrate message w).
Proof. unfold print_if_verbose, narrate, print. now destruct (verbose w). Qed.

Lemma sleep_run (n : nat) (w : World) :
  sleep n w = (Returned tt, record (ESleep n) w).
Proof. reflexivity. Qed.

Lemma inspect_run (sub text : string) (w : World) :
  inspect sub text w = (Returned (Py.contains sub text), note text w).
Proof. reflexivity. Qed.

Lemma vboxmanage_run (command : string) (w : World) :
  vboxmanage platform popen command w =
  (Returned (tool_output popen (history w) (command_line platform command)),
   record (ERun (command_line platform command)
                (tool_output popen (history w) (command_line platform command))) w).
Proof.
  unfold vboxmanage, tool_output, command_line.
  now destruct (popen (history w) _).
Qed.

Lemma guestcontrol_command_eq (vm : Machine) (args : Options) (command : string) :
  guestcontrol_command vm args command = Ok (guestcontrol vm args command).
Proof. reflexivity. Qed.

Lemma run_command_run (vm : Machine) (args : Options) (command : string)
    (w : World) :
  run_command platform popen vm args command w =
  vboxmanage platform popen (guestcontrol vm args command) w.
Proof.
  unfold run_command. now rewrite guestcontrol_command_eq, bind_lift_ok.
Qed.

Lemma app3 {A} (h : list A) (a b c : A) :
  (((h ++ [a]) ++ [b]) ++ [c] = h ++ [a; b; c])%list.
Proof. now rewrite <- !app_assoc. Qed.

(** Projections of the worlds that the primitives build. *)
Lemma history_record (e : event) (w : World) :
  history (record e w) = (history w ++ [e])%list.
Proof. reflexivity. Qed.

Lemma history_narrate (message : string) (w : World) :
  history (narrate message w) = history w.
Proof. unfold narrate. now destruct (verbose w). Qed.

Lemma verbose_narrate (message : string) (w : World) :
  verbose (narrate message w) = verbose w.
Proof. unfold narrate. destruct (verbose w) eqn:E; [reflexivity | exact E]. Qed.

Lemma inspected_narrate (message : string) (w : World) :
  inspected (narrate message w) = inspected w.
Proof. unfold narrate. now destruct (verbose w). Qed.

(** The dict that [discover_package_managers] returns and the events of
    its two probes. *)
Lemma discover_package_managers_run (vm : Machine) (args : Options) (w : World) :
  let a := next_attempt platform popen vm args (history w) in
  let apt_line := command_line platform (guestcontrol vm args "which apt") in
  let snap_line := command_line platform (guestcontrol vm args "which snap") in
  discover_package_managers platform popen vm args w =
  (Returned [("apt", Py.truthy (which_apt a)); ("snap", Py.truthy (which_snap a))],
   record (ERun snap_line (which_snap a)) (record (ERun apt_line (which_apt a)) w)).
Proof.
  cbv zeta. unfold discover_package_managers.
  cbn [map fst discover_package_managers_keys].
  change (Py.format "which {0}" ["apt"]) with (Ok "which apt").
  change (Py.format "which {0}" ["snap"]) with (Ok "which snap").
  rewrite bind_lift_ok, bind_run, run_command_run, vboxmanage_run.
  rewrite bind_lift_ok, bind_run, run_command_run, vboxmanage_run.
  cbn [next_attempt which_apt which_snap history_record].
  rewrite history_record.
  destruct (Py.truthy (tool_output popen (history w) _));
    destruct (Py.truthy (tool_output popen _ _)); reflexivity.
Qed.

(** One call of [run_update_command]: it returns the answer to the
    update command, and the history grows by the runs of the attempt. *)
Lemma run_update_command_run (vm : Machine) (args : Options) (w : World) :
  let a := next_attempt platform popen vm args (history w) in
  exists w',
    run_update_command platform popen vm args w = (Returned (dispatched a), w') /\
    history w' = (history w ++ attempt_runs platform vm args a)%list /\
    verbose w' = verbose w /\ stdout w' = stdout w /\ inspected w' = inspected w.
Proof.
  cbv zeta. unfold run_update_command.
  rewrite bind_run, discover_package_managers_run.
  rewrite (get_update_command_chain
             [("apt", Py.truthy _); ("snap", Py.truthy _)] args _ _
             eq_refl eq_refl), bind_lift_ok.
  rewrite run_command_run, vboxmanage_run.
  eexists. split; [reflexivity|].
  repeat split. cbn [history record].
  exact (app3 (history w) _ _ _).
Qed.

Lemma last_cons {A} (x d : A) (l : list A) : last (x :: l) d = last l x.
Proof.
  revert x d; induction l as [|y l IH]; intros x d; [reflexivity|].
  change (last (x :: y :: l) d) with (last (y :: l) d).
  now rewrite !IH.
Qed.

(** ** The dispatch loop *)

(** Whatever the tool answers and whatever the fuel, the dispatch loop
    never raises; its events are whole attempts, at most as many as the
    counter leaves below five; and it returns with the error flag set
    exactly when the response it keeps carries the error marker. *)
Lemma update_dispatch_run (vm : Machine) (args : Options) (fuel : nat) :
  forall (l : Locals) (w : World),
    error_detected l = false ->
    attempt_count l <= 5 ->
    exists attempts st w',
      update_dispatch platform popen fuel vm args l w = (st, w') /\
      history w' =
        (history w ++ flat_map (attempt_trace platform vm args) attempts)%list /\
      List.length attempts <= 5 - attempt_count l /\
      verbose w' = verbose w /\ stdout w' = stdout w /\
      inspected w' = inspected w /\
      match st with
      | Returned l' =>
          attempt_count l' <= 6 /\
          response l' = last (map dispatched attempts) (response l) /\
          (attempt_count l < 5 \/ Py.contains "error:" (response l) = true ->
           error_detected l' = Py.contains "error:" (response l'))
      | Raised _ => False
      | Pending => fuel <= 5 - attempt_count l
      end.
Proof.
  induction fuel as [|fuel IH]; intros l w Herr Hn.
  - exists [], Pending, w. cbn [flat_map List.length].
    rewrite app_nil_r. repeat split; lia.
  - cbn [update_dispatch]. rewrite Herr.
    destruct (5 <? attempt_count l + 1)%nat eqn:Hbudget.
    + apply Nat.ltb_lt in Hbudget.
      exists [], (Returned {| attempt_count := attempt_count l + 1;
                             error_detected := true;
                             response := response l |}), w.
      cbn [flat_map List.length map last attempt_count error_detected response].
      rewrite app_nil_r. repeat split; try lia.
      intros [H|H]; [lia | now rewrite H].
    + apply Nat.ltb_ge in Hbudget.
      destruct (run_update_command_run vm args w)
        as (w1 & Hrun & Hh1 & Hv1 & Ho1 & Hi1).
      set (a := next_attempt platform popen vm args (history w)) in *.
      rewrite (bind_returned _ _ _ _ _ Hrun).
      destruct (Py.contains "error:" (dispatched a)) eqn:Hmark.
      * rewrite bind_run, sleep_run.
        destruct (IH {| attempt_count := attempt_count l + 1;
                        error_detected := false;
                        response := dispatched a |}
                     (record (ESleep 30) w1))
          as (attempts & st & w' & Hloop & Hh & Hlen & Hv & Ho & Hi & Hst).
        { reflexivity. }
        { cbn [attempt_count]. lia. }
        cbn [attempt_count error_detected response] in *.
        exists (a :: attempts), st, w'. split; [exact Hloop|].
        split.
        { rewrite Hh, history_record, Hh1. cbn [flat_map].
          unfold attempt_trace at 2. rewrite Hmark.
          now rewrite <- !app_assoc. }
        split; [cbn [List.length]; lia|].
        split; [now rewrite Hv|]. split; [now rewrite Ho|].
        split; [now rewrite Hi|].
        destruct st as [l'| |]; [|exact Hst | lia].
        destruct Hst as (Hc & Hr & He). split; [exact Hc|].
        split; [cbn [map]; now rewrite last_cons|].
        intros _. apply He. now right.
      * exists [a], (Returned {| attempt_count := attempt_count l + 1;
                                error_detected := false;
                                response := dispatched a |}), w1.
        cbn [flat_map List.length map last attempt_count error_detected response].
        split; [reflexivity|]. split.
        { rewrite Hh1. unfold attempt_trace. rewrite Hmark.
          now rewrite !app_nil_r. }
        repeat split; try assumption; try lia.
        intros _. now rewrite Hmark.
Qed.

(** ** The completion loop *)

(** The world after [k] failed checks of the text [r]: each is noted and
    followed by the wait. *)
Lemma iter_checks_history (r : string) (k : nat) (w : World) :
  history (Nat.iter k (fun w => record (ESleep 30) (note r w)) w) =
  (history w ++ repeat (ESleep 30) k)%list.
Proof.
  induction k as [|k IH].
  - cbn [Nat.iter nat_rect repeat]. now rewrite app_nil_r.
  - rewrite Nat.iter_succ, history_record. cbn [note history]. rewrite IH.
    cbn [repeat]. now rewrite repeat_cons, app_assoc.
Qed.

Lemma iter_checks_inspected (r : string) (k : nat) (w : World) :
  inspected (Nat.iter k (fun w => record (ESleep 30) (note r w)) w) =
  (inspected w ++ repeat r k)%list.
Proof.
  induction k as [|k IH].
  - cbn [Nat.iter nat_rect repeat]. now rewrite app_nil_r.
  - rewrite Nat.iter_succ. cbn [record note inspected]. rewrite IH.
    cbn [repeat]. now rewrite repeat_cons, app_assoc.
Qed.

Lemma iter_checks_verbose (r : string) (k : nat) (w : World) :
  verbose (Nat.iter k (fun w => record (ESleep 30) (note r w)) w) = verbose w.
Proof.
  induction k as [|k IH]; [reflexivity|]. rewrite Nat.iter_succ. exact IH.
Qed.

Lemma iter_checks_stdout (r : string) (k : nat) (w : World) :
  stdout (Nat.iter k (fun w => record (ESleep 30) (note r w)) w) = stdout w.
Proof.
  induction k as [|k IH]; [reflexivity|]. rewrite Nat.iter_succ. exact IH.
Qed.

(** The loop on a text without the sentinel: it checks and waits until
    the counter passes twenty, then sets the error flag. *)
Lemma update_completion_absent (fuel : nat) :
  forall (n : nat) (r : string) (w : World),
    Py.contains flag r = false ->
    n <= 20 ->
    20 - n < fuel ->
    update_completion fuel
      {| attempt_count := n; error_detected := false; response := r |} w =
    (Returned {| attempt_count := 21; error_detected := true; response := r |},
     Nat.iter (20 - n) (fun w => record (ESleep 30) (note r w)) w).
Proof.
  induction fuel as [|fuel IH]; intros n r w Hflag Hn Hfuel; [lia|].
  cbn [update_completion error_detected attempt_count response].
  destruct (20 <? n + 1)%nat eqn:Hbudget.
  - apply Nat.ltb_lt in Hbudget. replace n with 20 by lia. reflexivity.
  - apply Nat.ltb_ge in Hbudget.
    rewrite bind_run, inspect_run, Hflag, bind_run, sleep_run.
    rewrite (IH (n + 1) r _ Hflag) by lia.
    replace (20 - n) with (S (20 - (n + 1))) by lia.
    now rewrite Nat.iter_succ_r.
Qed.

(** The loop for any fuel: it never raises, it runs no command, it
    checks the one text it was given, at most as often as the counter
    leaves below twenty, and it waits only after a check. *)
Lemma update_completion_run (fuel : nat) :
  forall (l : Locals) (w : World),
    attempt_count l <= 20 ->
    exists checks st w',
      update_completion fuel l w = (st, w') /\
      inspected w' = (inspected w ++ repeat (response l) checks)%list /\
      checks <= 20 - attempt_count l /\
      (exists waits, waits <= checks /\
         history w' = (history w ++ repeat (ESleep 30) waits)%list) /\
      verbose w' = verbose w /\ stdout w' = stdout w /\
      match st with
      | Returned l' => response l' = response l
      | Raised _ => False
      | Pending => fuel <= 20 - attempt_count l
      end.
Proof.
  induction fuel as [|fuel IH]; intros l w Hn.
  - exists 0, Pending, w. cbn [repeat]. rewrite !app_nil_r.
    repeat split; try lia. exists 0. cbn [repeat]. rewrite app_nil_r.
    split; [lia | reflexivity].
  - cbn [update_completion].
    destruct (error_detected l) eqn:Herr.
    + exists 0, (Returned l), w. cbn [repeat]. rewrite !app_nil_r.
      repeat split; try lia. exists 0. cbn [repeat]. rewrite app_nil_r.
      split; [lia | reflexivity].
    + destruct (20 <? attempt_count l + 1)%nat eqn:Hbudget.
      * exists 0, (Returned {| attempt_count := attempt_count l + 1;
                              error_detected := true;
                              response := response l |}), w.
        cbn [repeat response]. rewrite !app_nil_r.
        repeat split; try lia. exists 0. cbn [repeat]. rewrite app_nil_r.
        split; [lia | reflexivity].
      * apply Nat.ltb_ge in Hbudget.
        cbn [response]. rewrite bind_run, inspect_run.
        destruct (Py.contains flag (response l)) eqn:Hflag.
        -- exists 1, (Returned {| attempt_count := attempt_count l + 1;
                                 error_detected := false;
                                 response := response l |}),
             (note (response l) w).
           cbn [repeat response note inspected history verbose stdout].
           repeat split; try lia. exists 0. cbn [repeat].
           rewrite app_nil_r. split; [lia | reflexivity].
        -- rewrite bind_run, sleep_run.
           destruct (IH {| attempt_count := attempt_count l + 1;
                           error_detected := false;
                           response := response l |}
                        (record (ESleep 30) (note (response l) w)))
             as (checks & st & w' & Hloop & Hi & Hc & (waits & Hw & Hh) & Hv & Ho & Hst).
           { cbn [attempt_count]. lia. }
           cbn [attempt_count response record note inspected history
                verbose stdout] in *.
           exists (S checks), st, w'. split; [exact Hloop|].
           split; [rewrite Hi, <- app_assoc; reflexivity|].
           split; [lia|]. split.
           { exists (S waits). split; [lia|].
             rewrite Hh, <- app_assoc. reflexivity. }
           split; [assumption|]. split; [assumption|].
           destruct st; [assumption | assumption | lia].
Qed.

(** The loop entered without a dispatch error, with enough fuel. *)
Lemma update_completion_exact (fuel : nat) (l : Locals) (w : World) :
  error_detected l = false ->
  attempt_count l = 0 ->
  21 <= fuel ->
  exists l' w',
    update_completion fuel l w = (Returned l', w') /\
    response l' = response l /\
    error_detected l' = negb (Py.contains flag (response l)) /\
    verbose w' = verbose w /\ stdout w' = stdout w /\
    if Py.contains flag (response l)
    then history w' = history w /\
         inspected w' = (inspected w ++ [response l])%list
    else history w' = (history w ++ repeat (ESleep 30) 20)%list /\
         inspected w' = (inspected w ++ repeat (response l) 20)%list.
Proof.
  destruct l as [n err r]. cbn [error_detected attempt_count response].
  intros -> -> Hfuel.
  destruct (Py.contains flag r) eqn:Hflag.
  - destruct fuel as [|fuel]; [lia|].
    exists {| attempt_count := 1; error_detected := false; response := r |},
      (note r w).
    cbn [update_completion error_detected attempt_count response Nat.add].
    change (20 <? 1)%nat with false. cbv iota.
    rewrite bind_run, inspect_run, Hflag. now repeat split.
  - eexists _, _. split.
    + apply update_completion_absent; [exact Hflag | lia | lia].
    + cbn [response error_detected Nat.sub].
      rewrite iter_checks_history, iter_checks_inspected,
        iter_checks_verbose, iter_checks_stdout.
      now repeat split.
Qed.

(** The loop entered after a dispatch error does nothing. *)
Lemma update_completion_skipped (fuel : nat) (l : Locals) (w : World) :
  error_detected l = true ->
  update_completion (S fuel) l w = (Returned l, w).
Proof. intros H. cbn [update_completion]. now rewrite H. Qed.

(** ** The power-off wait *)

(** One turn of the wait. *)
Lemma update_shutdown_step (fuel : nat) (vm : Machine) (w : World) :
  update_shutdown platform popen (S fuel) vm w =
  let text := first_info platform popen vm w in
  match find_property_value text "VMState" with
  | Ok state =>
      if ("poweroff" =? state)%string
      then (Returned tt, queried platform popen vm w)
      else update_shutdown platform popen fuel vm
             (record (ESleep 15) (queried platform popen vm w))
  | Raise e => (Raised e, queried platform popen vm w)
  end.
Proof.
  cbv zeta. cbn [update_shutdown].
  change (Py.format "showvminfo {0} --machinereadable" [uuid vm])
    with (Ok (showvminfo vm)).
  rewrite bind_lift_ok, bind_run, vboxmanage_run.
  fold (first_info platform popen vm w). fold (queried platform popen vm w).
  destruct (find_property_value (first_info platform popen vm w) "VMState")
    as [state|e]; [|reflexivity].
  rewrite bind_lift_ok.
  destruct ("poweroff" =? state)%string; reflexivity.
Qed.

(** The wait only queries the state and pauses, and it returns only from
    a query that was answered with the state poweroff. *)
Lemma update_shutdown_run (vm : Machine) (fuel : nat) :
  forall w : World,
    exists polls st w',
      update_shutdown platform popen fuel vm w = (st, w') /\
      history w' = (history w ++ polls)%list /\
      Forall (poll_event platform vm) polls /\
      verbose w' = verbose w /\ stdout w' = stdout w /\
      inspected w' = inspected w /\
      (st = Returned tt ->
       exists before text,
         polls = (before ++ [ERun (command_line platform (showvminfo vm)) text])%list /\
         find_property_value text "VMState" = Ok "poweroff").
Proof.
  induction fuel as [|fuel IH]; intros w.
  - exists [], Pending, w. rewrite app_nil_r.
    repeat split; [constructor | discriminate].
  - rewrite update_shutdown_step. cbv zeta.
    destruct (find_property_value (first_info platform popen vm w) "VMState")
      as [state|e] eqn:Hstate.
    + destruct (String.eqb_spec "poweroff" state) as [<-|Hoff].
      * exists [ERun (command_line platform (showvminfo vm))
                       (first_info platform popen vm w)],
          (Returned tt), (queried platform popen vm w).
        split; [reflexivity|]. split; [reflexivity|].
        split; [constructor; [right; eauto | constructor]|].
        repeat split. intros _. exists [], (first_info platform popen vm w).
        now split.
      * destruct (IH (record (ESleep 15) (queried platform popen vm w)))
          as (polls & st & w' & Hrun & Hh & Hp & Hv & Ho & Hi & Hst).
        exists (ERun (command_line platform (showvminfo vm))
                     (first_info platform popen vm w) :: ESleep 15 :: polls),
          st, w'.
        split; [exact Hrun|].
        split; [rewrite Hh; cbn [history record queried];
                now rewrite <- !app_assoc|].
        split; [constructor; [right; eauto|]; constructor; [now left | exact Hp]|].
        repeat split; try assumption.
        intros E. destruct (Hst E) as (before & text & -> & Htext).
        exists (ERun (command_line platform (showvminfo vm))
                     (first_info platform popen vm w) :: ESleep 15 :: before), text.
        now split.
    + exists [ERun (command_line platform (showvminfo vm))
                     (first_info platform popen vm w)],
        (Raised e), (queried platform popen vm w).
      split; [reflexivity|]. split; [reflexivity|].
      split; [constructor; [right; eauto | constructor]|].
      repeat split. discriminate.
Qed.

(** The wait returns as soon as a query is answered with poweroff, however
    many queries that takes, given the fuel for them. *)
Lemma update_shutdown_returns (vm : Machine) (n : nat) :
  forall (fuel : nat) (w : World),
    powers_off_at platform popen vm n w ->
    n < fuel ->
    exists w', update_shutdown platform popen fuel vm w = (Returned tt, w').
Proof.
  induction n as [|n IH]; intros [|fuel] w Hoff Hfuel; try lia;
    rewrite update_shutdown_step; cbv zeta; cbn [powers_off_at] in Hoff.
  - rewrite Hoff. change ("poweroff" =? "poweroff")%string with true. eauto.
  - destruct Hoff as [(state & Hstate & Hne) Hlater]. rewrite Hstate.
    destruct (String.eqb_spec "poweroff" state) as [E|_]; [congruence|].
    apply IH; [exact Hlater | lia].
Qed.

(** The wait has no budget: as long as the machine does not report the
    state poweroff, it is still running, whatever the fuel. *)
Lemma update_shutdown_pending (vm : Machine) (fuel : nat) :
  forall w : World,
    (forall later, exists state,
        find_property_value
          (tool_output popen (history w ++ later)%list
                       (command_line platform (showvminfo vm))) "VMState"
        = Ok state /\ state <> "poweroff") ->
    fst (update_shutdown platform popen fuel vm w) = Pending.
Proof.
  induction fuel as [|fuel IH]; intros w Hon; [reflexivity|].
  rewrite update_shutdown_step. cbv zeta. unfold first_info.
  destruct (Hon []) as (state & Hstate & Hoff).
  rewrite app_nil_r in Hstate. rewrite Hstate.
  destruct (String.eqb_spec "poweroff" state) as [E|_]; [congruence|].
  apply IH. intros later. cbn [history record queried].
  rewrite <- !app_assoc. apply Hon.
Qed.

(** ** The whole of [update] *)

Lemma format_update_command (x : string) :
  Py.format "Update command {0}" [x] = Ok ("Update command " ++ x).
Proof.
  change (Py.format "Update command {0}" [x])
    with (Ok ("Update command " ++ x ++ "")).
  now rewrite PyFacts.append_nil_r.
Qed.

Lemma format_update (x : string) :
  Py.format "Update {0}" [x] = Ok ("Update " ++ x).
Proof.
  change (Py.format "Update {0}" [x]) with (Ok ("Update " ++ x ++ "")).
  now rewrite PyFacts.append_nil_r.
Qed.

Lemma format_startvm (vm : Machine) :
  Py.format "startvm {0}" [uuid vm] = Ok (startvm vm).
Proof.
  change (Py.format "startvm {0}" [uuid vm])
    with (Ok ("startvm " ++ uuid vm ++ "")).
  now rewrite PyFacts.append_nil_r.
Qed.

(** The decisions of [update] up to the dispatch loop. *)
Lemma update_run (fuel : nat) (vm : Machine) (args : Options) (w : World) :
  update platform popen fuel vm args w =
  let info := first_info platform popen vm w in
  let w1 := queried platform popen vm w in
  match find_property_value info "VMState" with
  | Raise e => (Raised e, w1)
  | Ok state =>
      if negb ("poweroff" =? state)%string then (Returned false, w1)
      else
        match find_property_value info "ostype" with
        | Raise e => (Raised e, w1)
        | Ok ostype =>
            if ("Windows" =? ostype)%string then (Returned false, w1)
            else if negb (Py.contains "successfully started"
                            (start_answer platform popen vm w))
            then (Returned false, booted platform popen vm w)
            else update_started platform popen fuel vm args
                   (start_answer platform popen vm w)
                   (narrate "Waiting to run update command"
                      (narrate "Machine started successfully"
                         (booted platform popen vm w)))
        end
  end.
Proof.
  cbv zeta. unfold update.
  change (Py.format "showvminfo {0} --machinereadable" [uuid vm])
    with (Ok (showvminfo vm)).
  rewrite bind_lift_ok, bind_run, vboxmanage_run.
  fold (first_info platform popen vm w). fold (queried platform popen vm w).
  destruct (find_property_value (first_info platform popen vm w) "VMState")
    as [state|e]; [|reflexivity].
  rewrite bind_lift_ok.
  destruct (negb ("poweroff" =? state)%string); [reflexivity|].
  destruct (find_property_value (first_info platform popen vm w) "ostype")
    as [ostype|e]; [|reflexivity].
  rewrite bind_lift_ok.
  destruct ("Windows" =? ostype)%string; [reflexivity|].
  rewrite bind_run, print_if_verbose_run.
  rewrite format_startvm, bind_lift_ok, bind_run, vboxmanage_run.
  rewrite history_narrate. fold (start_answer platform popen vm w).
  rewrite bind_run, sleep_run. fold (booted platform popen vm w).
  destruct (negb (Py.contains "successfully started"
                    (start_answer platform popen vm w))); [reflexivity|].
  rewrite bind_run, print_if_verbose_run.
  rewrite bind_run, print_if_verbose_run.
  reflexivity.
Qed.

(** After an acknowledged start: at most five attempts, then at most
    twenty checks of the response kept from the last attempt, each
    failed check followed by a wait; then, unless the fuel of a bounded
    loop was too small, the power button and the settle delay, and the
    rest of [update] is the power-off wait. *)
Lemma update_started_run (vm : Machine) (args : Options) (fuel : nat)
    (answer : string) (w : World) :
  exists attempts checks waits,
    List.length attempts <= 5 /\ checks <= 20 /\ waits <= checks /\
    let r := last (map dispatched attempts) answer in
    let h := (history w ++ flat_map (attempt_trace platform vm args) attempts
              ++ repeat (ESleep 30) waits)%list in
    let i := (inspected w ++ repeat r checks)%list in
    (fuel < 21 /\
     exists w',
       update_started platform popen fuel vm args answer w = (Pending, w') /\
       history w' = h /\ inspected w' = i /\ verbose w' = verbose w)
    \/
    (exists out w_off,
       history w_off =
         (h ++ [ERun (command_line platform (acpipowerbutton vm)) out; ESleep 30])%list /\
       inspected w_off = i /\ verbose w_off = verbose w /\
       update_started platform popen fuel vm args answer w =
       update_power_off platform popen fuel vm w_off).
Proof.
  unfold update_started.
  destruct (update_dispatch_run vm args fuel
              {| attempt_count := 0; error_detected := false; response := answer |}
              w eq_refl (Nat.le_0_l 5))
    as (attempts & st & w1 & Hd & Hh1 & Hlen & Hv1 & _ & Hi1 & Hst).
  cbn [attempt_count response] in *.
  rewrite bind_run, Hd. destruct st as [l1| |]; [|contradiction|].
  - destruct Hst as (_ & Hr & _).
    rewrite format_update_command, bind_lift_ok.
    rewrite bind_run, print_if_verbose_run, bind_run, print_if_verbose_run.
    rewrite bind_run.
    match goal with
    | |- context [update_completion fuel ?l ?w0] =>
        destruct (update_completion_run fuel l w0 (Nat.le_0_l 20))
          as (checks & st & w2 & Hc & Hi2 & Hchecks & (waits & Hwaits & Hh2)
              & Hv2 & _ & Hst)
    end.
    cbn [reset_attempt_count attempt_count response] in *.
    rewrite !history_narrate in Hh2. rewrite !inspected_narrate in Hi2.
    rewrite !verbose_narrate in Hv2.
    exists attempts, checks, waits.
    split; [lia|]. split; [lia|]. split; [exact Hwaits|]. cbv zeta.
    rewrite Hc. destruct st as [l2| |]; [|contradiction|].
    + right. rewrite format_update, bind_lift_ok.
      rewrite bind_run, print_if_verbose_run, bind_run, print_if_verbose_run.
      change (Py.format "controlvm {0} acpipowerbutton" [uuid vm])
        with (Ok (acpipowerbutton vm)).
      rewrite bind_lift_ok, bind_run, vboxmanage_run, bind_run, sleep_run.
      eexists _, _. split; [|split; [|split; [|reflexivity]]].
      * cbn [history record]. rewrite !history_narrate, Hh2, Hh1.
        now rewrite <- !app_assoc.
      * cbn [inspected record]. rewrite !inspected_narrate, Hi2, Hi1.
        now rewrite Hr.
      * cbn [verbose record]. rewrite !verbose_narrate. congruence.
    + left. split; [lia|]. exists w2. split; [reflexivity|].
      split; [rewrite Hh2, Hh1; now rewrite <- !app_assoc|].
      split; [rewrite Hi2, Hi1; now rewrite Hr | congruence].
  - exists attempts, 0, 0.
    split; [lia|]. split; [lia|]. split; [lia|]. cbv zeta.
    left. split; [lia|]. exists w1. cbn [repeat]. rewrite !app_nil_r.
    now repeat split.
Qed.

(** After an acknowledged start and with enough fuel for the two bounded
    loops, [update] always reaches the power button: the history holds
    the attempts, the waits of the completion loop, the power button and
    the settle delay, and the rest of [update] is the power-off wait. *)
Lemma update_started_exact (vm : Machine) (args : Options) (fuel : nat)
    (answer : string) (w : World) :
  21 <= fuel ->
  exists attempts out w_off,
    let r := last (map dispatched attempts) answer in
    List.length attempts <= 5 /\
    history w_off =
      (history w ++ flat_map (attempt_trace platform vm args) attempts
       ++ repeat (ESleep 30) (waits r)
       ++ [ERun (command_line platform (acpipowerbutton vm)) out; ESleep 30])%list /\
    inspected w_off = (inspected w ++ repeat r (searches r))%list /\
    verbose w_off = verbose w /\
    update_started platform popen fuel vm args answer w =
    update_power_off platform popen fuel vm w_off.
Proof.
  intros Hfuel. unfold update_started.
  destruct (update_dispatch_run vm args fuel
              {| attempt_count := 0; error_detected := false; response := answer |}
              w eq_refl (Nat.le_0_l 5))
    as (attempts & st & w1 & Hd & Hh1 & Hlen & Hv1 & _ & Hi1 & Hst).
  cbn [attempt_count response] in *.
  rewrite bind_run, Hd. destruct st as [l1| |]; [|contradiction | lia].
  destruct Hst as (_ & Hr & Herr).
  assert (H05 : 0 < 5) by lia. specialize (Herr (or_introl H05)). clear H05.
  exists attempts. cbv zeta. rewrite <- Hr.
  rewrite format_update_command, bind_lift_ok.
  rewrite bind_run, print_if_verbose_run, bind_run, print_if_verbose_run.
  rewrite bind_run.
  assert (Hcompletion : exists l2 w2,
    update_completion fuel (reset_attempt_count l1)
      (narrate "Waiting for update to finish"
         (narrate ("Update command " ++
                   (if error_detected (reset_attempt_count l1)
                    then "failed" else "run")) w1))
    = (Returned l2, w2) /\
    history w2 = (history w1 ++ repeat (ESleep 30) (waits (response l1)))%list /\
    inspected w2 = (inspected w1 ++ repeat (response l1) (searches (response l1)))%list /\
    verbose w2 = verbose w1).
  { unfold waits, searches. rewrite <- Herr.
    destruct (error_detected l1) eqn:E.
    - destruct fuel as [|fuel']; [lia|].
      eexists _, _. split; [now apply update_completion_skipped|].
      rewrite !history_narrate, !inspected_narrate, !verbose_narrate.
      cbn [repeat]. now rewrite !app_nil_r.
    - edestruct (update_completion_exact fuel (reset_attempt_count l1))
        as (l2 & w2 & Hc & _ & _ & Hv2 & _ & Hcase);
        [exact E | reflexivity | exact Hfuel |].
      exists l2, w2. split; [exact Hc|].
      rewrite !history_narrate, !inspected_narrate in Hcase.
      rewrite !verbose_narrate in Hv2.
      cbn [reset_attempt_count response] in Hcase.
      destruct (Py.contains flag (response l1)).
      + destruct Hcase as [-> ->]. cbn [repeat]. now rewrite app_nil_r.
      + now destruct Hcase as [-> ->]. }
  destruct Hcompletion as (l2 & w2 & Hc & Hh2 & Hi2 & Hv2). rewrite Hc.
  rewrite format_update, bind_lift_ok.
  rewrite bind_run, print_if_verbose_run, bind_run, print_if_verbose_run.
  change (Py.format "controlvm {0} acpipowerbutton" [uuid vm])
    with (Ok (acpipowerbutton vm)).
  rewrite bind_lift_ok, bind_run, vboxmanage_run, bind_run, sleep_run.
  eexists _, _. split; [lia|]. split; [|split; [|split; [|reflexivity]]].
  - cbn [history record]. rewrite !history_narrate, Hh2, Hh1.
    now rewrite <- !app_assoc.
  - cbn [inspected record]. now rewrite !inspected_narrate, Hi2, Hi1.
  - cbn [verbose record]. rewrite !verbose_narrate. congruence.
Qed.

(** The end of [update] returns only [True], and only from a query that
    was answered with the state poweroff. *)
Lemma update_power_off_run (vm : Machine) (fuel : nat) (w : World) :
  exists polls st w',
    update_power_off platform popen fuel vm w = (st, w') /\
    history w' = (history w ++ polls)%list /\
    Forall (poll_event platform vm) polls /\
    inspected w' = inspected w /\
    (forall b, st = Returned b ->
       b = true /\
       exists before text,
         polls = (before ++ [ERun (command_line platform (showvminfo vm)) text])%list /\
         find_property_value text "VMState" = Ok "poweroff").
Proof.
  destruct (update_shutdown_run vm fuel w)
    as (polls & st & w' & Hrun & Hh & Hp & _ & _ & Hi & Hst).
  unfold update_power_off. rewrite bind_run, Hrun.
  destruct st as [[]| |].
  - rewrite bind_run, print_if_verbose_run.
    exists polls, (Returned true), (narrate "Shutdown complete" w').
    split; [reflexivity|]. rewrite history_narrate, inspected_narrate.
    repeat split; try assumption.
    + now injection H.
    + now apply Hst.
  - exists polls, (Raised e), w'. repeat split; try assumption; discriminate.
  - exists polls, Pending, w'. repeat split; try assumption; discriminate.
Qed.

(** Once the start is acknowledged, nothing that the dispatch loop or
    the completion loop finds makes [update] return [False]. *)
Lemma update_started_not_false (vm : Machine) (args : Options) (fuel : nat)
    (answer : string) (w : World) :
  fst (update_started platform popen fuel vm args answer w) <> Returned false.
Proof.
  destruct (update_started_run vm args fuel answer w)
    as (attempts & checks & n & _ & _ & _ & Hcases). cbv zeta in Hcases.
  destruct Hcases as [(_ & w' & -> & _) | (out & w_off & _ & _ & _ & ->)];
    [discriminate|].
  destruct (update_power_off_run vm fuel w_off)
    as (polls & st & w' & -> & _ & _ & _ & Hst).
  cbn [fst]. intros ->. now destruct (Hst false eq_refl).
Qed.

(** [update] on an eligible machine whose start is acknowledged. *)
Lemma update_eligible_started (fuel : nat) (vm : Machine) (args : Options)
    (w : World) :
  eligible platform popen vm w ->
  started platform popen vm w ->
  update platform popen fuel vm args w =
  update_started platform popen fuel vm args
    (start_answer platform popen vm w)
    (narrate "Waiting to run update command"
       (narrate "Machine started successfully" (booted platform popen vm w))).
Proof.
  intros (Hstate & ostype & Hos & Hne) Hstart. unfold started in Hstart.
  rewrite update_run. cbv zeta. rewrite Hstate, Hos, Hstart.
  change ("poweroff" =? "poweroff")%string with true. cbn [negb].
  destruct (String.eqb_spec "Windows" ostype) as [E|_]; [congruence|].
  reflexivity.
Qed.

Lemma history_booted (vm : Machine) (w : World) :
  history (booted platform popen vm w) =
  (history w ++ [ERun (command_line platform (showvminfo vm))
                      (first_info platform popen vm w);
                 ERun (command_line platform (startvm vm))
                      (start_answer platform popen vm w);
                 ESleep 60])%list.
Proof.
  unfold booted. rewrite !history_record, history_narrate.
  unfold queried. rewrite history_record. now rewrite <- !app_assoc.
Qed.

End Runs.


(** * The state machine of [update] *)

(** What the two tests of [update] do turn away.  When the machine reports
    a state other than poweroff, or reports the state poweroff and the
    guest type that is the word Windows itself, [update] returns [False]
    after its state query alone: the history grows by that one command, so
    no start command and no guest command is run, and nothing else
    changes. *)
Theorem update_skips_ineligible
    (platform : string) (popen : list event -> string -> string * string)
    (fuel : nat) (vm : Machine) (args : Options) (w : World) (state : string) :
  find_property_value (first_info platform popen vm w) "VMState" = Ok state ->
  state <> "poweroff" \/
  find_property_value (first_info platform popen vm w) "ostype" = Ok "Windows" ->
  update platform popen fuel vm args w =
    (Returned false, queried platform popen vm w) /\
  history (queried platform popen vm w) =
    (history w ++ [ERun (command_line platform (showvminfo vm))
                        (first_info platform popen vm w)])%list /\
  stdout (queried platform popen vm w) = stdout w.
Proof.
  intros Hstate H. split; [|split; reflexivity].
  rewrite update_run. cbv zeta. rewrite Hstate.
  destruct (String.eqb_spec "poweroff" state) as [<-|Hoff]; [|reflexivity].
  destruct H as [H|H]; [congruence|]. now rewrite H.
Qed.

Lemma update_skips_ineligible_witness :
  update "linux" (stub "running" "Ubuntu_64" not_ready) 21 web admin quiet =
  (Returned false,
   queried "linux" (stub "running" "Ubuntu_64" not_ready) web quiet).
Proof.
  refine (proj1 (update_skips_ineligible "linux"
                   (stub "running" "Ubuntu_64" not_ready) 21 web admin quiet
                   "running" _ (or_introl _))).
  - vm_compute. reflexivity.
  - discriminate.
Defined.

(** C2 fails on the code.  The test that is meant to turn Windows guests
    away compares the guest type with the word Windows itself, and
    VirtualBox reports no such type but variants of it: a powered-off
    machine whose state query reports the guest type Windows10_64 passes
    the test, is started, receives the guest commands of the dispatch
    loop, and [update] returns [True] for it. *)
Lemma update_windows_variant_counterexample :
  find_property_value
    (first_info "linux" (stub "poweroff" "Windows10_64" not_ready) web quiet)
    "ostype" = Ok "Windows10_64" /\
  fst (update "linux" (stub "poweroff" "Windows10_64" not_ready) 21 web admin quiet)
    = Returned true /\
  In (ERun "VBoxManage startvm 0a1b-2c3d-4e5f-6071-8293"
           (tool_output (stub "poweroff" "Windows10_64" not_ready) []
                        "VBoxManage startvm 0a1b-2c3d-4e5f-6071-8293"))
     (history (snd (update "linux" (stub "poweroff" "Windows10_64" not_ready)
                      21 web admin quiet))) /\
  In (ERun (command_line "linux" (guestcontrol web admin "which apt"))
           (snd not_ready))
     (history (snd (update "linux" (stub "poweroff" "Windows10_64" not_ready)
                      21 web admin quiet))).
Proof.
  split; [vm_compute; reflexivity|]. split; [vm_compute; reflexivity|].
  split; vm_compute; tauto.
Qed.

(** C4.  In every run of [update], for every tool and every fuel, the
    history grows by the events before the dispatch loop, then by whole
    dispatch attempts, five at most, each with one dispatch of the update
    command, then by the waits of the completion loop, then by the events
    of the shutdown; and the texts searched for the sentinel are at most
    twenty, each wait following a search. *)
Theorem update_loops_bounded
    (platform : string) (popen : list event -> string -> string * string)
    (fuel : nat) (vm : Machine) (args : Options) (w : World) :
  exists pre attempts checks waits post text,
    history (snd (update platform popen fuel vm args w)) =
      (history w ++ pre
       ++ flat_map (attempt_trace platform vm args) attempts
       ++ repeat (ESleep 30) waits
       ++ post)%list /\
    inspected (snd (update platform popen fuel vm args w)) =
      (inspected w ++ repeat text checks)%list /\
    boot_events platform vm pre /\
    shutdown_events platform vm post /\
    List.length attempts <= 5 /\
    checks <= 20 /\
    waits <= checks.
Proof.
  assert (Hearly : forall st,
    update platform popen fuel vm args w = (st, queried platform popen vm w) ->
    exists pre attempts checks waits post text,
      history (snd (update platform popen fuel vm args w)) =
        (history w ++ pre
         ++ flat_map (attempt_trace platform vm args) attempts
         ++ repeat (ESleep 30) waits
         ++ post)%list /\
      inspected (snd (update platform popen fuel vm args w)) =
        (inspected w ++ repeat text checks)%list /\
      boot_events platform vm pre /\
      shutdown_events platform vm post /\
      List.length attempts <= 5 /\
      checks <= 20 /\
      waits <= checks).
  { intros st ->.
    exists [ERun (command_line platform (showvminfo vm))
                 (first_info platform popen vm w)], [], 0, 0, [], "".
    cbn [snd flat_map repeat List.length app]. rewrite app_nil_r.
    repeat split; try lia.
    - exists (first_info platform popen vm w). now left.
    - now left. }
  pose proof (update_run platform popen fuel vm args w) as Hrun.
  cbv zeta in Hrun.
  destruct (find_property_value (first_info platform popen vm w) "VMState")
    as [state|e]; [|now apply (Hearly _ Hrun)].
  destruct (negb ("poweroff" =? state)%string); [now apply (Hearly _ Hrun)|].
  destruct (find_property_value (first_info platform popen vm w) "ostype")
    as [ostype|e]; [|now apply (Hearly _ Hrun)].
  destruct ("Windows" =? ostype)%string; [now apply (Hearly _ Hrun)|].
  clear Hearly.
  assert (Hboot : history (booted platform popen vm w) =
    (history w ++ [ERun (command_line platform (showvminfo vm))
                        (first_info platform popen vm w);
                   ERun (command_line platform (startvm vm))
                        (start_answer platform popen vm w);
                   ESleep 60])%list).
  { unfold booted. rewrite !history_record, history_narrate.
    unfold queried. rewrite history_record. now rewrite <- !app_assoc. }
  assert (Hboot' : boot_events platform vm
            [ERun (command_line platform (showvminfo vm))
                  (first_info platform popen vm w);
             ERun (command_line platform (startvm vm))
                  (start_answer platform popen vm w);
             ESleep 60]).
  { exists (first_info platform popen vm w). right.
    now exists (start_answer platform popen vm w). }
  destruct (negb (Py.contains "successfully started"
                    (start_answer platform popen vm w))).
  - rewrite Hrun. cbn [snd]. rewrite Hboot.
    exists [ERun (command_line platform (showvminfo vm))
                 (first_info platform popen vm w);
            ERun (command_line platform (startvm vm))
                 (start_answer platform popen vm w);
            ESleep 60], [], 0, 0, [], "".
    cbn [flat_map repeat List.length]. rewrite !app_nil_r.
    split; [reflexivity|].
    split; [unfold booted; cbn [inspected record];
            now rewrite inspected_narrate|].
    split; [exact Hboot'|]. split; [now left|]. lia.
  - rewrite Hrun.
    destruct (update_started_run platform popen vm args fuel
                (start_answer platform popen vm w)
                (narrate "Waiting to run update command"
                   (narrate "Machine started successfully"
                      (booted platform popen vm w))))
      as (attempts & checks & waits & Hlen & Hchecks & Hwaits & Hcases).
    cbv zeta in Hcases.
    rewrite !history_narrate, !inspected_narrate, Hboot in Hcases.
    assert (Hi : inspected (booted platform popen vm w) = inspected w).
    { unfold booted. cbn [inspected record]. now rewrite inspected_narrate. }
    rewrite Hi in Hcases.
    destruct Hcases as [(_ & w' & Hp & Hh & Hi' & _)
                       | (out & w_off & Hh & Hi' & _ & Hoff)].
    + rewrite Hp. cbn [snd]. rewrite Hh, Hi'.
      exists [ERun (command_line platform (showvminfo vm))
                   (first_info platform popen vm w);
              ERun (command_line platform (startvm vm))
                   (start_answer platform popen vm w);
              ESleep 60], attempts, checks, waits, [].
      eexists.
      split; [now rewrite app_nil_r, <- !app_assoc|].
      split; [reflexivity|]. split; [exact Hboot'|]. split; [now left|]. lia.
    + rewrite Hoff.
      destruct (update_power_off_run platform popen vm fuel w_off)
        as (polls & st & w' & Hrun' & Hh' & Hpolls & Hi'' & _).
      rewrite Hrun'. cbn [snd]. rewrite Hh', Hh, Hi'', Hi'.
      exists [ERun (command_line platform (showvminfo vm))
                   (first_info platform popen vm w);
              ERun (command_line platform (startvm vm))
                   (start_answer platform popen vm w);
              ESleep 60], attempts, checks, waits,
        (ERun (command_line platform (acpipowerbutton vm)) out :: ESleep 30 :: polls).
      eexists.
      split; [now rewrite <- !app_assoc|].
      split; [reflexivity|]. split; [exact Hboot'|].
      split; [right; exists out, polls; now split|]. lia.
Qed.

(** ** The completion stage inside [update] *)

Section Completion.
Variable platform : string.
Variable popen : list event -> string -> string * string.

(** What a narration prints when the run is verbose. *)
Lemma stdout_narrate (message : string) (w : World) :
  verbose w = true -> stdout (narrate message w) = (stdout w ++ [message])%list.
Proof. intros H. unfold narrate. now rewrite H. Qed.

(** With fuel for its six turns the dispatch loop of [update] returns
    after one attempt at least; the response it keeps is the answer to
    its last attempt, and the error flag is set exactly when that answer
    carries the error marker. *)
Lemma update_dispatch_begun (vm : Machine) (args : Options) (fuel : nat)
    (answer : string) (w : World) :
  6 <= fuel ->
  exists a rest l' w',
    update_dispatch platform popen fuel vm args
      {| attempt_count := 0; error_detected := false; response := answer |} w
    = (Returned l', w') /\
    history w' =
      (history w ++ flat_map (attempt_trace platform vm args) (a :: rest))%list /\
    List.length rest <= 4 /\
    verbose w' = verbose w /\ stdout w' = stdout w /\
    inspected w' = inspected w /\
    response l' = last (map dispatched (a :: rest)) answer /\
    error_detected l' = Py.contains "error:" (response l').
Proof.
  intros Hfuel. destruct fuel as [|fuel]; [lia|].
  cbn [update_dispatch error_detected attempt_count response].
  change (5 <? 0 + 1)%nat with false. cbv iota.
  destruct (run_update_command_run platform popen vm args w)
    as (w1 & Hrun & Hh1 & Hv1 & Ho1 & Hi1).
  set (a := next_attempt platform popen vm args (history w)) in *.
  rewrite (bind_returned _ _ _ _ _ Hrun).
  destruct (Py.contains "error:" (dispatched a)) eqn:Hmark.
  - rewrite bind_run, sleep_run.
    destruct (update_dispatch_run platform popen vm args fuel
                {| attempt_count := 0 + 1; error_detected := false;
                   response := dispatched a |}
                (record (ESleep 30) w1) eq_refl)
      as (rest & st & w' & Hloop & Hh & Hlen & Hv & Ho & Hi & Hst).
    { cbn [attempt_count]. lia. }
    cbn [attempt_count response] in *.
    destruct st as [l'| |]; [|contradiction | lia].
    destruct Hst as (_ & Hr & Herr).
    exists a, rest, l', w'. split; [exact Hloop|]. split.
    { rewrite Hh, history_record, Hh1. cbn [flat_map].
      unfold attempt_trace at 2. rewrite Hmark. now rewrite <- !app_assoc. }
    split; [lia|].
    split; [now rewrite Hv|]. split; [now rewrite Ho|].
    split; [now rewrite Hi|].
    split; [cbn [map]; now rewrite last_cons|].
    apply Herr. left. lia.
  - exists a, [], {| attempt_count := 0 + 1; error_detected := false;
                    response := dispatched a |}, w1.
    cbn [flat_map List.length map last error_detected response].
    split; [reflexivity|]. split.
    { rewrite Hh1. unfold attempt_trace. rewrite Hmark. now rewrite !app_nil_r. }
    split; [lia|]. split; [exact Hv1|]. split; [exact Ho1|].
    split; [exact Hi1|]. split; [reflexivity | now rewrite Hmark].
Qed.

(** The completion loop as [update] enters it, with fuel for its
    twenty-one turns: after a dispatch error it is skipped; else it
    searches the response once when the sentinel is there, and twenty
    times, with a wait after each search, when it is not. *)
Lemma update_completion_cases (fuel : nat) (l : Locals) (w : World) :
  attempt_count l = 0 ->
  21 <= fuel ->
  exists l' w' checks,
    update_completion fuel l w = (Returned l', w') /\
    verbose w' = verbose w /\ stdout w' = stdout w /\
    inspected w' = (inspected w ++ repeat (response l) checks)%list /\
    ((error_detected l = true /\
      checks = 0 /\ history w' = history w /\ error_detected l' = true) \/
     (error_detected l = false /\ Py.contains flag (response l) = true /\
      checks = 1 /\ history w' = history w /\ error_detected l' = false) \/
     (error_detected l = false /\ Py.contains flag (response l) = false /\
      checks = 20 /\ history w' = (history w ++ repeat (ESleep 30) 20)%list /\
      error_detected l' = true)).
Proof.
  intros Hn Hfuel. destruct (error_detected l) eqn:E.
  - destruct fuel as [|fuel']; [lia|].
    exists l, w, 0. split; [now apply update_completion_skipped|].
    cbn [repeat]. rewrite app_nil_r. split; [reflexivity|].
    split; [reflexivity|]. split; [reflexivity|]. left. now repeat split.
  - destruct (update_completion_exact fuel l w E Hn Hfuel)
      as (l' & w' & Hc & _ & Herr & Hv & Ho & Hcase).
    destruct (Py.contains flag (response l)) eqn:Hflag.
    + destruct Hcase as [Hh Hi]. exists l', w', 1.
      split; [exact Hc|]. split; [exact Hv|]. split; [exact Ho|].
      split; [exact Hi|]. right. left. now repeat split.
    + destruct Hcase as [Hh Hi]. exists l', w', 20.
      split; [exact Hc|]. split; [exact Hv|]. split; [exact Ho|].
      split; [exact Hi|]. right. right. now repeat split.
Qed.

(** The part of [update] that follows an acknowledged start, with fuel
    for the two bounded loops, up to the power button: the attempts, the
    searches and the waits of the completion loop, and what is narrated. *)
Lemma update_started_outcome (vm : Machine) (args : Options) (fuel : nat)
    (answer : string) (w : World) :
  21 <= fuel ->
  exists attempts out w_off checks pauses verdict,
    let r := last (map dispatched attempts) answer in
    attempts <> [] /\
    List.length attempts <= 5 /\
    update_started platform popen fuel vm args answer w =
      update_power_off platform popen fuel vm w_off /\
    history w_off =
      (history w ++ flat_map (attempt_trace platform vm args) attempts
       ++ repeat (ESleep 30) pauses
       ++ [ERun (command_line platform (acpipowerbutton vm)) out; ESleep 30])%list /\
    inspected w_off = (inspected w ++ repeat r checks)%list /\
    (verbose w = true ->
     stdout w_off =
       (stdout w
        ++ [("Update command " ++ (if Py.contains "error:" r then "failed" else "run"))%string;
            "Waiting for update to finish";
            verdict;
            "Shutting down machine"])%list) /\
    (Py.contains "error:" r = true ->
     checks = 0 /\ pauses = 0 /\ verdict = "Update timed out") /\
    (Py.contains "error:" r = false -> Py.contains flag r = true ->
     checks = 1 /\ pauses = 0 /\ verdict = "Update completed") /\
    (Py.contains "error:" r = false -> Py.contains flag r = false ->
     checks = 20 /\ pauses = 20 /\ verdict = "Update timed out").
Proof.
  intros Hfuel. unfold update_started.
  destruct (update_dispatch_begun vm args fuel answer w)
    as (a & rest & l1 & w1 & Hd & Hh1 & Hlen & Hv1 & Ho1 & Hi1 & Hr & Herr);
    [lia|].
  rewrite bind_run, Hd.
  rewrite format_update_command, bind_lift_ok.
  rewrite bind_run, print_if_verbose_run, bind_run, print_if_verbose_run.
  rewrite bind_run.
  destruct (update_completion_cases fuel (reset_attempt_count l1)
              (narrate "Waiting for update to finish"
                 (narrate ("Update command " ++
                           (if error_detected (reset_attempt_count l1)
                            then "failed" else "run")) w1))
              eq_refl Hfuel)
    as (l2 & w2 & checks & Hc & Hv2 & Ho2 & Hi2 & Hcases).
  rewrite Hc.
  rewrite format_update, bind_lift_ok.
  rewrite bind_run, print_if_verbose_run, bind_run, print_if_verbose_run.
  change (Py.format "controlvm {0} acpipowerbutton" [uuid vm])
    with (Ok (acpipowerbutton vm)).
  rewrite bind_lift_ok, bind_run, vboxmanage_run, bind_run, sleep_run.
  cbn [reset_attempt_count response error_detected] in *.
  rewrite !history_narrate, !inspected_narrate, !verbose_narrate in *.
  set (out := tool_output popen _ _).
  set (r := last (map dispatched (a :: rest)) answer) in *.
  assert (Hpauses : exists pauses,
    history w2 = (history w1 ++ repeat (ESleep 30) pauses)%list /\
    (Py.contains "error:" r = true ->
     checks = 0 /\ pauses = 0 /\ error_detected l2 = true) /\
    (Py.contains "error:" r = false -> Py.contains flag r = true ->
     checks = 1 /\ pauses = 0 /\ error_detected l2 = false) /\
    (Py.contains "error:" r = false -> Py.contains flag r = false ->
     checks = 20 /\ pauses = 20 /\ error_detected l2 = true)).
  { rewrite Herr, Hr in Hcases.
    destruct Hcases as [(He & -> & Hh & He2)
                       |[(He & Hf & -> & Hh & He2)
                        |(He & Hf & -> & Hh & He2)]].
    - exists 0. cbn [repeat]. rewrite app_nil_r. split; [exact Hh|].
      repeat split; congruence.
    - exists 0. cbn [repeat]. rewrite app_nil_r. split; [exact Hh|].
      repeat split; congruence.
    - exists 20. split; [exact Hh|]. repeat split; congruence. }
  destruct Hpauses as (pauses & Hh2 & Hmarked & Hfound & Hmissing).
  exists (a :: rest), out, (record (ESleep 30)
    (record (ERun (command_line platform (acpipowerbutton vm)) out)
       (narrate "Shutting down machine"
          (narrate ("Update " ++ (if error_detected l2
                                  then "timed out" else "completed")) w2)))),
    checks, pauses,
    ("Update " ++ (if error_detected l2 then "timed out" else "completed")).
  cbv zeta. fold r.
  split; [discriminate|].
  split; [cbn [List.length]; lia|].
  split; [reflexivity|].
  split.
  { cbn [history record]. rewrite !history_narrate, Hh2, Hh1.
    now rewrite <- !app_assoc. }
  split.
  { cbn [inspected record]. rewrite !inspected_narrate, Hi2, Hi1.
    now rewrite Hr. }
  split.
  { intros Hverbose. cbn [stdout record].
    rewrite !stdout_narrate, Ho2, !stdout_narrate, Ho1, Herr, Hr.
    - now rewrite <- !app_assoc.
    - congruence.
    - rewrite verbose_narrate. congruence.
    - rewrite Hv2. congruence.
    - rewrite verbose_narrate, Hv2. congruence. }
  split.
  { intros H. destruct (Hmarked H) as (-> & -> & ->). now repeat split. }
  split.
  { intros H H'. destruct (Hfound H H') as (-> & -> & ->). now repeat split. }
  intros H H'. destruct (Hmissing H H') as (-> & -> & ->). now repeat split.
Qed.

End Completion.

(** C3, as amended.  For an eligible machine whose start is acknowledged,
    and with fuel for the two bounded loops, [update] runs no command
    between the last dispatch attempt and the power button: the
    completion loop only searches the answer to the last dispatch
    attempt, and what it does is decided by that one text.  When the text
    carries no error marker and holds the sentinel, it is searched once,
    no wait follows, and the completion is narrated.  When it carries no
    error marker and does not hold the sentinel, it is searched twenty
    times, a wait of thirty seconds follows each search, and a timeout is
    narrated.  When it carries the error marker, which is the case after
    five refused attempts, it is not searched at all, whether it holds
    the sentinel or not: no wait is made and a timeout is narrated. *)
Theorem update_completion_single_text
    (platform : string) (popen : list event -> string -> string * string)
    (fuel : nat) (vm : Machine) (args : Options) (w : World) :
  eligible platform popen vm w ->
  started platform popen vm w ->
  21 <= fuel ->
  exists attempts out w_off checks pauses verdict,
    let r := last (map dispatched attempts) (start_answer platform popen vm w) in
    attempts <> [] /\
    List.length attempts <= 5 /\
    update platform popen fuel vm args w =
      update_power_off platform popen fuel vm w_off /\
    history w_off =
      (history w
       ++ [ERun (command_line platform (showvminfo vm))
                (first_info platform popen vm w);
           ERun (command_line platform (startvm vm))
                (start_answer platform popen vm w);
           ESleep 60]
       ++ flat_map (attempt_trace platform vm args) attempts
       ++ repeat (ESleep 30) pauses
       ++ [ERun (command_line platform (acpipowerbutton vm)) out; ESleep 30])%list /\
    inspected w_off = (inspected w ++ repeat r checks)%list /\
    (verbose w = true ->
     stdout w_off =
       (stdout w
        ++ ["Starting machine";
            "Machine started successfully";
            "Waiting to run update command";
            ("Update command " ++ (if Py.contains "error:" r then "failed" else "run"))%string;
            "Waiting for update to finish";
            verdict;
            "Shutting down machine"])%list) /\
    (Py.contains "error:" r = true ->
     checks = 0 /\ pauses = 0 /\ verdict = "Update timed out") /\
    (Py.contains "error:" r = false -> Py.contains flag r = true ->
     checks = 1 /\ pauses = 0 /\ verdict = "Update completed") /\
    (Py.contains "error:" r = false -> Py.contains flag r = false ->
     checks = 20 /\ pauses = 20 /\ verdict = "Update timed out").
Proof.
  intros Helig Hstart Hfuel.
  rewrite (update_eligible_started platform popen fuel vm args w Helig Hstart).
  destruct (update_started_outcome platform popen vm args fuel
              (start_answer platform popen vm w)
              (narrate "Waiting to run update command"
                 (narrate "Machine started successfully"
                    (booted platform popen vm w))) Hfuel)
    as (attempts & out & w_off & checks & pauses & verdict
        & Hne & Hlen & Hrun & Hh & Hi & Ho & Hcases).
  cbv zeta in *.
  rewrite !history_narrate, history_booted in Hh.
  rewrite !inspected_narrate in Hi.
  rewrite !verbose_narrate in Ho.
  assert (Hvb : verbose (booted platform popen vm w) = verbose w).
  { unfold booted. cbn [verbose record]. now rewrite verbose_narrate. }
  assert (Hib : inspected (booted platform popen vm w) = inspected w).
  { unfold booted. cbn [inspected record]. now rewrite inspected_narrate. }
  rewrite Hib in Hi. rewrite Hvb in Ho.
  exists attempts, out, w_off, checks, pauses, verdict.
  split; [exact Hne|]. split; [exact Hlen|]. split; [exact Hrun|].
  split; [rewrite Hh; now rewrite <- !app_assoc|].
  split; [exact Hi|].
  split; [|exact Hcases].
  intros Hverbose. rewrite (Ho Hverbose).
  rewrite !stdout_narrate.
  - unfold booted. cbn [stdout record]. rewrite stdout_narrate; [|exact Hverbose].
    now rewrite <- !app_assoc.
  - now rewrite Hvb.
  - now rewrite verbose_narrate, Hvb.
Qed.

Lemma update_completion_single_text_witness :
  exists attempts out w_off checks pauses verdict,
    let popen := stub "poweroff" "Ubuntu_64" finished in
    let r := last (map dispatched attempts) (start_answer "linux" popen web chatty) in
    attempts <> [] /\
    List.length attempts <= 5 /\
    update "linux" popen 21 web admin chatty =
      update_power_off "linux" popen 21 web w_off /\
    history w_off =
      (history chatty
       ++ [ERun (command_line "linux" (showvminfo web))
                (first_info "linux" popen web chatty);
           ERun (command_line "linux" (startvm web))
                (start_answer "linux" popen web chatty);
           ESleep 60]
       ++ flat_map (attempt_trace "linux" web admin) attempts
       ++ repeat (ESleep 30) pauses
       ++ [ERun (command_line "linux" (acpipowerbutton web)) out; ESleep 30])%list /\
    inspected w_off = (inspected chatty ++ repeat r checks)%list /\
    (verbose chatty = true ->
     stdout w_off =
       (stdout chatty
        ++ ["Starting machine";
            "Machine started successfully";
            "Waiting to run update command";
            ("Update command " ++ (if Py.contains "error:" r then "failed" else "run"))%string;
            "Waiting for update to finish";
            verdict;
            "Shutting down machine"])%list) /\
    (Py.contains "error:" r = true ->
     checks = 0 /\ pauses = 0 /\ verdict = "Update timed out") /\
    (Py.contains "error:" r = false -> Py.contains flag r = true ->
     checks = 1 /\ pauses = 0 /\ verdict = "Update completed") /\
    (Py.contains "error:" r = false -> Py.contains flag r = false ->
     checks = 20 /\ pauses = 20 /\ verdict = "Update timed out").
Proof.
  refine (update_completion_single_text "linux"
            (stub "poweroff" "Ubuntu_64" finished) 21 web admin chatty _ _ (le_n 21)).
  - split; [vm_compute; reflexivity|].
    exists "Ubuntu_64". split; [vm_compute; reflexivity | discriminate].
  - vm_compute. reflexivity.
Defined.

(** C3, as stated, fails: the completion loop is entered only when the
    dispatch loop set no error flag.  Here every guest command is answered
    with the sentinel on the output and the error marker on the errors:
    the response kept from the five attempts holds the sentinel, yet no
    text is ever searched for it (no check is made, not one), a timeout is
    narrated, and the power button follows the last back-off at once. *)
Lemma update_completion_skipped_counterexample :
  Py.contains flag (fst finished_with_complaint ++ snd finished_with_complaint) = true /\
  Py.contains "error:" (fst finished_with_complaint ++ snd finished_with_complaint)
    = true /\
  In (ERun (command_line "linux"
              (guestcontrol web admin
                 (update_command admin
                    {| which_apt := fst finished_with_complaint
                                    ++ snd finished_with_complaint;
                       which_snap := fst finished_with_complaint
                                     ++ snd finished_with_complaint;
                       dispatched := "" |})))
           (fst finished_with_complaint ++ snd finished_with_complaint))
     (history (snd (update "linux"
                      (stub "poweroff" "Ubuntu_64" finished_with_complaint)
                      21 web admin chatty))) /\
  inspected (snd (update "linux" (stub "poweroff" "Ubuntu_64" finished_with_complaint)
                    21 web admin chatty)) = [] /\
  stdout (snd (update "linux" (stub "poweroff" "Ubuntu_64" finished_with_complaint)
                 21 web admin chatty)) =
    ["Starting machine"; "Machine started successfully";
     "Waiting to run update command"; "Update command failed";
     "Waiting for update to finish"; "Update timed out";
     "Shutting down machine"; "Shutdown complete"] /\
  fst (update "linux" (stub "poweroff" "Ubuntu_64" finished_with_complaint)
         21 web admin chatty) = Returned true.
Proof.
  split; [vm_compute; reflexivity|]. split; [vm_compute; reflexivity|].
  split; [vm_compute; tauto|]. split; [vm_compute; reflexivity|].
  split; vm_compute; reflexivity.
Qed.

(** C8.  For an eligible machine whose start is acknowledged, and with fuel
    for the two bounded loops, [update] always sends the power button,
    whatever the dispatch loop and the completion loop found; what is left
    of it is the power-off wait.  [update] then returns only [True], and
    only from a state query that was answered with poweroff; as long as no
    query is answered with poweroff it is still running, whatever the
    fuel; and it does return once a query is answered with poweroff,
    however many queries that takes. *)
Theorem update_powers_off
    (platform : string) (popen : list event -> string -> string * string)
    (fuel : nat) (vm : Machine) (args : Options) (w : World) :
  eligible platform popen vm w ->
  started platform popen vm w ->
  21 <= fuel ->
  exists middle out w_off,
    history w_off =
      (history w ++ middle
       ++ [ERun (command_line platform (acpipowerbutton vm)) out; ESleep 30])%list /\
    update platform popen fuel vm args w =
      update_power_off platform popen fuel vm w_off /\
    (forall b w',
       update platform popen fuel vm args w = (Returned b, w') ->
       b = true /\
       exists polls text,
         history w' =
           (history w_off ++ polls
            ++ [ERun (command_line platform (showvminfo vm)) text])%list /\
         Forall (poll_event platform vm) polls /\
         find_property_value text "VMState" = Ok "poweroff") /\
    ((forall later, exists state,
         find_property_value
           (tool_output popen (history w_off ++ later)%list
                        (command_line platform (showvminfo vm))) "VMState"
         = Ok state /\ state <> "poweroff") ->
     fst (update platform popen fuel vm args w) = Pending) /\
    (forall n,
       powers_off_at platform popen vm n w_off -> n < fuel ->
       fst (update platform popen fuel vm args w) = Returned true).
Proof.
  intros Helig Hstart Hfuel.
  rewrite (update_eligible_started platform popen fuel vm args w Helig Hstart).
  destruct (update_started_exact platform popen vm args fuel
              (start_answer platform popen vm w)
              (narrate "Waiting to run update command"
                 (narrate "Machine started successfully"
                    (booted platform popen vm w))) Hfuel)
    as (attempts & out & w_off & _ & Hh & _ & _ & Hrun).
  cbv zeta in Hh. rewrite !history_narrate, history_booted in Hh.
  exists ([ERun (command_line platform (showvminfo vm))
                (first_info platform popen vm w);
           ERun (command_line platform (startvm vm))
                (start_answer platform popen vm w);
           ESleep 60]
          ++ flat_map (attempt_trace platform vm args) attempts
          ++ repeat (ESleep 30)
               (waits (last (map dispatched attempts)
                            (start_answer platform popen vm w))))%list,
    out, w_off.
  split; [|split; [exact Hrun|split; [|split]]].
  - rewrite Hh. now rewrite <- !app_assoc.
  - intros b w' Hret. rewrite Hrun in Hret.
    destruct (update_power_off_run platform popen vm fuel w_off)
      as (polls & st & w'' & Hoff & Hh' & Hpolls & _ & Hst).
    rewrite Hoff in Hret. injection Hret as -> ->.
    destruct (Hst b eq_refl) as (-> & before & text & -> & Htext).
    split; [reflexivity|]. exists before, text.
    split; [exact Hh'|]. split; [|exact Htext].
    now apply Forall_app in Hpolls.
  - intros Hon. rewrite Hrun. unfold update_power_off. rewrite bind_run.
    pose proof (update_shutdown_pending platform popen vm fuel w_off Hon) as Hp.
    destruct (update_shutdown platform popen fuel vm w_off) as [st w'].
    cbn [fst] in Hp. now rewrite Hp.
  - intros n Hn Hlt. rewrite Hrun. unfold update_power_off.
    destruct (update_shutdown_returns platform popen vm n fuel w_off Hn Hlt)
      as [w' Hret].
    now rewrite bind_run, Hret, bind_run, print_if_verbose_run.
Qed.

Lemma update_powers_off_witness :
  exists w_off,
    update "linux" (stub "poweroff" "Ubuntu_64" not_ready) 21 web admin quiet =
    update_power_off "linux" (stub "poweroff" "Ubuntu_64" not_ready) 21 web w_off.
Proof.
  destruct (update_powers_off "linux" (stub "poweroff" "Ubuntu_64" not_ready)
              21 web admin quiet)
    as (middle & out & w_off & _ & Hrun & _).
  - split; [vm_compute; reflexivity|].
    exists "Ubuntu_64". split; [vm_compute; reflexivity | discriminate].
  - vm_compute. reflexivity.
  - apply le_n.
  - exists w_off. exact Hrun.
Defined.

(** C1 fails on the code.  With a tool that answers every guest command
    with the error marker, the dispatch loop spends its five attempts, the
    narration says that the command failed and that the update timed out,
    and yet [update] returns [True] and [main] reports success.  The same
    holds with a tool whose answers carry neither the error marker nor the
    sentinel, where the completion loop spends its twenty checks. *)
Lemma update_true_after_timeout :
  fst (update "linux" (stub "poweroff" "Ubuntu_64" not_ready) 21 web admin chatty)
    = Returned true /\
  stdout (snd (update "linux" (stub "poweroff" "Ubuntu_64" not_ready)
                 21 web admin chatty))
    = ["Starting machine"; "Machine started successfully";
       "Waiting to run update command"; "Update command failed";
       "Waiting for update to finish"; "Update timed out";
       "Shutting down machine"; "Shutdown complete"] /\
  fst (update "linux" (stub "poweroff" "Ubuntu_64" ("", "")) 21 web admin chatty)
    = Returned true /\
  stdout (snd (update "linux" (stub "poweroff" "Ubuntu_64" ("", ""))
                 21 web admin chatty))
    = ["Starting machine"; "Machine started successfully";
       "Waiting to run update command"; "Update command run";
       "Waiting for update to finish"; "Update timed out";
       "Shutting down machine"; "Shutdown complete"] /\
  stdout (snd (main "linux" (stub "poweroff" "Ubuntu_64" not_ready) 21
                 ["update.py"; "admin"; "hunter2"; "-v"] quiet))
    = ["1 found"; ""; "Updating 0 web";
       "Starting machine"; "Machine started successfully";
       "Waiting to run update command"; "Update command failed";
       "Waiting for update to finish"; "Update timed out";
       "Shutting down machine"; "Shutdown complete";
       "Update successful"].
Proof. repeat split; vm_compute; reflexivity. Qed.

(** What C1 asks for never happens, whatever the tool does: for an
    eligible machine whose start is acknowledged, [update] does not return
    [False]. *)
Lemma update_never_false_after_start
    (platform : string) (popen : list event -> string -> string * string)
    (fuel : nat) (vm : Machine) (args : Options) (w : World) :
  eligible platform popen vm w ->
  started platform popen vm w ->
  fst (update platform popen fuel vm args w) <> Returned false.
Proof.
  intros Helig Hstart.
  rewrite (update_eligible_started platform popen fuel vm args w Helig Hstart).
  apply update_started_not_false.
Qed.


(** * Further properties: the command line *)

Section ParseArguments.

Lemma with_verbose_same (w : World) : with_verbose (verbose w) w = w.
Proof. now destruct w. Qed.

Lemma with_flags_nil (arguments : Options) : with_flags [] arguments = arguments.
Proof.
  destruct arguments. unfold with_flags, given. cbn.
  now rewrite !orb_false_r.
Qed.

Lemma with_flags_cons (arg : string) (flags : list string) (arguments : Options) :
  with_flags (arg :: flags) arguments =
  with_flags flags
    {| username := username arguments;
       password := password arguments;
       remove := remove arguments || ("-r" =? arg)%string;
       shutdown := shutdown arguments || ("-s" =? arg)%string;
       verbose_option := verbose_option arguments || ("-v" =? arg)%string |}.
Proof.
  unfold with_flags, given.
  cbn [existsb username password remove shutdown verbose_option].
  now rewrite !orb_assoc.
Qed.

(** The loop over a run of recognised flags. *)
Lemma parse_arguments_flags_recognised (good : list string) :
  Forall (fun arg => recognised arg = true) good ->
  forall (tail : list string) (arguments : Options) (w : World),
    parse_arguments_flags (good ++ tail)%list arguments w =
    parse_arguments_flags tail (with_flags good arguments)
      (with_verbose (verbose w || given "-v" good) w).
Proof.
  induction 1 as [|arg good Harg _ IH]; intros tail arguments w.
  - cbn [app given existsb]. now rewrite with_flags_nil, orb_false_r, with_verbose_same.
  - cbn [app parse_arguments_flags]. rewrite with_flags_cons.
    unfold given. cbn [existsb]. fold (given "-v" good).
    destruct (String.eqb_spec "-h" arg) as [<-|_]; [discriminate|].
    unfold recognised in Harg.
    destruct (String.eqb_spec "-r" arg) as [<-|_].
    { rewrite IH. change ("-s" =? "-r")%string with false.
      change ("-v" =? "-r")%string with false.
      now rewrite !orb_false_r, !orb_true_r, !orb_false_l. }
    destruct (String.eqb_spec "-s" arg) as [<-|_].
    { rewrite IH. change ("-v" =? "-s")%string with false.
      now rewrite !orb_false_r, !orb_true_r, !orb_false_l. }
    destruct (String.eqb_spec "-v" arg) as [<-|_]; [|discriminate].
    unfold bind, set_verbose. rewrite IH. unfold with_verbose.
    cbn [verbose stdout history inspected].
    now rewrite !orb_false_r, !orb_true_r, !orb_true_l.
Qed.

(** [parse_arguments] runs no command and searches nothing. *)
Lemma parse_arguments_flags_history (flags : list string) :
  forall (arguments : Options) (w : World),
    history (snd (parse_arguments_flags flags arguments w)) = history w.
Proof.
  induction flags as [|arg flags IH]; intros arguments w; [reflexivity|].
  cbn [parse_arguments_flags].
  destruct ("-h" =? arg)%string; [reflexivity|].
  destruct ("-r" =? arg)%string; [apply IH|].
  destruct ("-s" =? arg)%string; [apply IH|].
  destruct ("-v" =? arg)%string; [|reflexivity].
  unfold bind, set_verbose.
  match goal with |- context [parse_arguments_flags flags ?a ?w0] =>
    specialize (IH a w0); destruct (parse_arguments_flags flags a w0) as [[o| |] w1]
  end; exact IH.
Qed.

Lemma parse_arguments_history (argv : list string) (w : World) :
  history (snd (parse_arguments argv w)) = history w.
Proof.
  destruct argv as [|script [|user [|pass flags]]]; try reflexivity.
  apply parse_arguments_flags_history.
Qed.

End ParseArguments.

(** X1.  When every flag after the user name and the password is one of
    -r, -s and -v, [parse_arguments] returns the options with each switch
    on exactly when its flag is given, in any order and any number of
    times; it prints nothing, and the global [verbose] is on afterwards
    when it was on before or -v is given. *)
Theorem parse_arguments_recognised
    (script user pass : string) (flags : list string) (w : World) :
  Forall (fun arg => recognised arg = true) flags ->
  parse_arguments (script :: user :: pass :: flags) w =
  (Returned (Some {| username := user; password := pass;
                     remove := given "-r" flags;
                     shutdown := given "-s" flags;
                     verbose_option := given "-v" flags |}),
   with_verbose (verbose w || given "-v" flags) w).
Proof.
  intros H. cbn [parse_arguments].
  rewrite <- (app_nil_r flags) at 1.
  rewrite (parse_arguments_flags_recognised flags H). reflexivity.
Qed.

Lemma parse_arguments_recognised_witness :
  parse_arguments ["update.py"; "admin"; "hunter2"; "-s"; "-r"; "-s"] quiet =
  (Returned (Some {| username := "admin"; password := "hunter2";
                     remove := true; shutdown := true;
                     verbose_option := false |}),
   quiet).
Proof.
  exact (parse_arguments_recognised "update.py" "admin" "hunter2"
           ["-s"; "-r"; "-s"] quiet ltac:(repeat constructor)).
Defined.

(** X2.  At the first flag that is none of -r, -s and -v,
    [parse_arguments] returns [False] and reads no further: without a
    word for -h, and after printing the unknown argument otherwise.  The
    global [verbose] stays on if -v came before that flag. *)
Theorem parse_arguments_rejected
    (script user pass : string) (good : list string) (bad : string)
    (rest : list string) (w : World) :
  Forall (fun arg => recognised arg = true) good ->
  recognised bad = false ->
  parse_arguments (script :: user :: pass :: good ++ bad :: rest)%list w =
  (Returned None,
   let w' := with_verbose (verbose w || given "-v" good) w in
   if ("-h" =? bad)%string then w'
   else printed ("Unknown argument: " ++ bad ++ " " ++ newline) w').
Proof.
  intros Hgood Hbad. cbn [parse_arguments].
  rewrite (parse_arguments_flags_recognised good Hgood).
  cbn [parse_arguments_flags]. unfold recognised in Hbad.
  destruct ("-h" =? bad)%string; [reflexivity|].
  destruct ("-r" =? bad)%string; [discriminate|].
  destruct ("-s" =? bad)%string; [discriminate|].
  destruct ("-v" =? bad)%string; [discriminate|].
  reflexivity.
Qed.

Lemma parse_arguments_rejected_witness :
  parse_arguments ["update.py"; "admin"; "hunter2"; "-v"; "--fast"; "-r"] quiet =
  (Returned None,
   {| verbose := true;
      stdout := ["Unknown argument: --fast " ++ newline];
      history := []; inspected := [] |}).
Proof.
  exact (parse_arguments_rejected "update.py" "admin" "hunter2"
           ["-v"] "--fast" ["-r"] quiet ltac:(repeat constructor) eq_refl).
Defined.

(** X3.  With fewer than three arguments [parse_arguments] returns
    [False] and changes nothing; and whenever it returns [False], [main]
    prints the usage as its last line and leaves with SystemExit without
    having run any command. *)
Theorem main_usage
    (platform : string) (popen : list event -> string -> string * string)
    (fuel : nat) (argv : list string) (w : World) :
  (List.length argv < 3 -> parse_arguments argv w = (Returned None, w)) /\
  (fst (parse_arguments argv w) = Returned None ->
   main platform popen fuel argv w =
     (Raised SystemExit, printed usage (snd (parse_arguments argv w))) /\
   history (snd (main platform popen fuel argv w)) = history w).
Proof.
  split.
  - destruct argv as [|script [|user [|pass flags]]]; cbn [List.length];
      try reflexivity; lia.
  - intros Hnone.
    assert (Hmain : main platform popen fuel argv w =
              (Raised SystemExit, printed usage (snd (parse_arguments argv w)))).
    { unfold main. rewrite bind_run.
      destruct (parse_arguments argv w) as [st w'] eqn:E. cbn [fst snd] in *.
      subst st. reflexivity. }
    split; [exact Hmain|]. rewrite Hmain. cbn [snd printed history].
    apply parse_arguments_history.
Qed.

Lemma main_usage_witness :
  main "linux" (stub "poweroff" "Ubuntu_64" not_ready) 21
       ["update.py"; "admin"; "hunter2"; "-h"] quiet =
  (Raised SystemExit, printed usage quiet).
Proof.
  exact (proj1 (proj2 (main_usage "linux" (stub "poweroff" "Ubuntu_64" not_ready)
                         21 ["update.py"; "admin"; "hunter2"; "-h"] quiet)
                      eq_refl)).
Defined.

(** X4.  When the options are read and the text that the tool prints for
    the listing is made of accepted lines only, with no empty line to end
    it, [main] stops with TypeError right after the listing command: no
    machine is touched. *)
Theorem main_listing_without_empty_line
    (platform : string) (popen : list event -> string -> string * string)
    (fuel : nat) (argv : list string) (w w1 : World) (args : Options) :
  parse_arguments argv w = (Returned (Some args), w1) ->
  Forall accepted_line
    (Py.split (tool_output popen (history w1) (command_line platform "list vms"))
              newline) ->
  main platform popen fuel argv w =
  (Raised TypeError,
   record (ERun (command_line platform "list vms")
                (tool_output popen (history w1) (command_line platform "list vms")))
          w1).
Proof.
  intros Hargs Hlines. unfold main.
  rewrite (bind_returned _ _ _ _ _ Hargs).
  rewrite bind_run, vboxmanage_run.
  unfold parse_machines.
  destruct (parse_machines_lines_accepted _ Hlines) as (vms & _ & Hrun).
  specialize (Hrun [] []). rewrite app_nil_r in Hrun. rewrite Hrun.
  reflexivity.
Qed.

Lemma main_listing_without_empty_line_witness :
  fst (main "linux" (fun _ _ => (listing_line web, "")) 21
            ["update.py"; "admin"; "hunter2"] quiet)
  = Raised TypeError.
Proof.
  refine (f_equal fst (main_listing_without_empty_line "linux"
             (fun _ _ => (listing_line web, "")) 21
             ["update.py"; "admin"; "hunter2"] quiet quiet
             {| username := "admin"; password := "hunter2";
                remove := false; shutdown := false; verbose_option := false |}
             _ _)).
  - reflexivity.
  - repeat constructor; discriminate.
Defined.


(** * Further properties: the parsers and the guest command *)

Section MoreParsing.
Import Py PyFacts.

Lemma join_snoc_empty (pieces : list string) :
  pieces <> [] ->
  join newline (pieces ++ [""])%list = join newline pieces ++ newline.
Proof.
  induction pieces as [|l pieces IH]; [congruence|]. intros _.
  destruct pieces as [|l' pieces].
  - cbn [app join String.concat]. now rewrite append_nil_r.
  - change (join newline ((l :: l' :: pieces) ++ [""])%list)
      with (l ++ newline ++ join newline ((l' :: pieces) ++ [""])%list).
    rewrite IH by discriminate.
    change (join newline (l :: l' :: pieces))
      with (l ++ newline ++ join newline (l' :: pieces)).
    now rewrite !append_assoc.
Qed.

Lemma parse_machines_lines_listing (vms : list Machine) :
  Forall printable vms ->
  forall acc,
    parse_machines_lines (map listing_line vms ++ [""])%list acc =
    Ok (Some (acc ++ vms)%list).
Proof.
  induction 1 as [|vm vms (Hname & Hfmt & _) _ IH]; intros acc.
  - cbn. now rewrite app_nil_r.
  - cbn [map app parse_machines_lines].
    change ("" =? listing_line vm)%string with false. cbv iota.
    rewrite Hfmt, (parse_machine_listing_line vm Hname).
    cbn [negb rbind]. rewrite IH. now rewrite <- app_assoc.
Qed.

Lemma find_property_value_lines_unquoted (property line : string)
    (pre rest : list string) :
  Forall (fun l => startswith l property = false) pre ->
  startswith line property = true ->
  contains dq line = false ->
  find_property_value_lines (pre ++ line :: rest)%list property = Raise ValueError.
Proof.
  intros Hpre Hline Hquote. induction Hpre as [|l pre Hl _ IH].
  - cbn [app find_property_value_lines]. rewrite Hline.
    unfold Py.index. now rewrite (contains_false_index _ _ Hquote).
  - cbn [app find_property_value_lines]. now rewrite Hl.
Qed.

Lemma find_property_value_lines_snoc_empty (key : string) (lines : list string) :
  key <> "" ->
  find_property_value_lines (lines ++ [""])%list key =
  find_property_value_lines lines key.
Proof.
  intros Hkey. induction lines as [|l lines IH].
  - cbn [app find_property_value_lines]. unfold startswith.
    destruct key as [|c key]; [congruence|]. now rewrite prefix_nil_r.
  - cbn [app find_property_value_lines]. now rewrite IH.
Qed.

Lemma dict_get_missing (d : Managers) (key : string) :
  ~ In key (map fst d) -> dict_get d key = Raise (KeyError key).
Proof.
  induction d as [|[k v] d IH]; intros H; [reflexivity|].
  cbn [dict_get]. cbn [map fst In] in H.
  destruct (String.eqb_spec k key) as [E|_]; [tauto|]. apply IH. tauto.
Qed.

Lemma dict_get_present (d : Managers) (key : string) :
  In key (map fst d) -> exists v, dict_get d key = Ok v.
Proof.
  induction d as [|[k v] d IH]; intros H; [contradiction|].
  cbn [dict_get]. cbn [map fst In] in H.
  destruct (String.eqb_spec k key) as [E|N]; [eauto|].
  apply IH. tauto.
Qed.

Lemma truthy_nonempty (s : string) : truthy s = negb (s =? "")%string.
Proof. now destruct s. Qed.

End MoreParsing.

(** X5.  Round trip of the listing: for machines whose lines are
    accepted, [parse_machines] applied to the listing as the tool prints
    it, every line ended by the line separator, returns exactly these
    machines, in order. *)
Theorem parse_machines_listing_text (vms : list Machine) :
  Forall printable vms ->
  parse_machines (listing_text vms) = Ok (Some vms).
Proof.
  intros H. unfold parse_machines, listing_text.
  rewrite PyFacts.split_join.
  - now rewrite (parse_machines_lines_listing vms H []).
  - destruct vms; discriminate.
  - apply Forall_app. split; [|now repeat constructor].
    apply Forall_map. eapply Forall_impl; [|exact H].
    intros vm (_ & _ & Hnl). now apply contains_false_index.
Qed.

Lemma parse_machines_listing_text_witness :
  parse_machines
    (listing_text [web; {| name := "db 2"; uuid := "aaaa-bbbb-cccc-dddd-eeee" |}])
  = Ok (Some [web; {| name := "db 2"; uuid := "aaaa-bbbb-cccc-dddd-eeee" |}]).
Proof.
  apply parse_machines_listing_text.
  repeat constructor.
Defined.

(** X6.  When the first line that starts with the property holds no
    double quote, [find_property_value] raises ValueError, not the
    not-found exception, and does not look at the lines after it. *)
Theorem find_property_value_unquoted
    (vminfo property : string) (pre : list string) (line : string)
    (rest : list string) :
  Py.split vminfo newline = (pre ++ line :: rest)%list ->
  Forall (fun l => Py.startswith l property = false) pre ->
  Py.startswith line property = true ->
  Py.contains Py.dq line = false ->
  find_property_value vminfo property = Raise ValueError.
Proof.
  intros Hsplit Hpre Hline Hquote. unfold find_property_value.
  rewrite Hsplit. now apply find_property_value_lines_unquoted.
Qed.

Lemma find_property_value_unquoted_witness :
  find_property_value
    ("name=web" ++ newline ++ "VMState=running" ++ newline
     ++ property_line ("VMState", "poweroff"))
    "VMState"
  = Raise ValueError.
Proof.
  refine (find_property_value_unquoted _ "VMState" ["name=web"] "VMState=running"
            [property_line ("VMState", "poweroff")] _ _ _ _).
  - reflexivity.
  - repeat constructor.
  - reflexivity.
  - reflexivity.
Defined.

(** X7.  The line separator that ends the last line of a dump makes no
    difference: for a non-empty property, [find_property_value] gives the
    same result on a dump of [key="value"] lines with and without it. *)
Theorem find_property_value_trailing_newline
    (props : list (string * string)) (key : string) :
  props <> [] ->
  Forall well_formed_property props ->
  key <> "" ->
  find_property_value (machine_info props ++ newline) key =
  find_property_value (machine_info props) key.
Proof.
  intros Hne Hwf Hkey. unfold find_property_value, machine_info.
  assert (Hlines : Forall (fun l => String.index 0 newline l = None)
                     (map property_line props)).
  { apply Forall_map. eapply Forall_impl; [|exact Hwf].
    intros kv [_ H]. now apply contains_false_index. }
  assert (Hmap : map property_line props <> []) by (destruct props; [congruence | discriminate]).
  rewrite <- (join_snoc_empty _ Hmap).
  rewrite !PyFacts.split_join; try assumption.
  - now apply find_property_value_lines_snoc_empty.
  - destruct (map property_line props); discriminate.
  - apply Forall_app. split; [assumption | now repeat constructor].
Qed.

Lemma find_property_value_trailing_newline_witness :
  find_property_value
    (machine_info [("VMState", "poweroff"); ("ostype", "Ubuntu_64")] ++ newline)
    "ostype"
  = find_property_value
      (machine_info [("VMState", "poweroff"); ("ostype", "Ubuntu_64")]) "ostype".
Proof.
  apply find_property_value_trailing_newline.
  - discriminate.
  - repeat constructor.
  - discriminate.
Defined.

(** X8.  [get_update_command] looks both managers up in the dict: a dict
    without the key apt raises KeyError for apt, and a dict with apt but
    without snap raises KeyError for snap, whatever the options. *)
Theorem get_update_command_missing_manager (managers : Managers) (args : Options) :
  (~ In "apt" (map fst managers) ->
   get_update_command managers args = Raise (KeyError "apt")) /\
  (In "apt" (map fst managers) -> ~ In "snap" (map fst managers) ->
   get_update_command managers args = Raise (KeyError "snap")).
Proof.
  split.
  - intros H. unfold get_update_command. now rewrite (dict_get_missing _ _ H).
  - intros Hapt Hsnap. unfold get_update_command.
    destruct (dict_get_present _ _ Hapt) as [v ->].
    now rewrite (dict_get_missing _ _ Hsnap).
Qed.

Lemma get_update_command_missing_manager_witness :
  get_update_command [("apt", true)] admin = Raise (KeyError "snap").
Proof.
  apply (proj2 (get_update_command_missing_manager [("apt", true)] admin)).
  - left. reflexivity.
  - intros [H|[]]. discriminate.
Defined.

(** X9.  Given the answers of the tool to the probe for apt and, after it,
    to the probe for snap, [discover_package_managers] runs these two
    probes in this order and nothing else, and in the dict it returns a
    manager is present exactly when its probe was answered with any text,
    an error message included. *)
Theorem discover_package_managers_presence
    (platform : string) (popen : list event -> string -> string * string)
    (vm : Machine) (args : Options) (w : World) (r_apt r_snap : string) :
  tool_output popen (history w)
    (command_line platform (guestcontrol vm args "which apt")) = r_apt ->
  tool_output popen
    (history w ++ [ERun (command_line platform (guestcontrol vm args "which apt"))
                        r_apt])%list
    (command_line platform (guestcontrol vm args "which snap")) = r_snap ->
  discover_package_managers platform popen vm args w =
    (Returned [("apt", negb (r_apt =? "")%string);
               ("snap", negb (r_snap =? "")%string)],
     record (ERun (command_line platform (guestcontrol vm args "which snap")) r_snap)
       (record (ERun (command_line platform (guestcontrol vm args "which apt")) r_apt)
          w)).
Proof.
  intros <- <-. rewrite discover_package_managers_run. cbv zeta.
  cbn [next_attempt which_apt which_snap history record].
  now rewrite !truthy_nonempty.
Qed.

Lemma discover_package_managers_presence_witness :
  discover_package_managers "linux" (stub "poweroff" "Ubuntu_64" not_ready)
    web admin quiet =
  (Returned [("apt", true); ("snap", true)],
   record (ERun (command_line "linux" (guestcontrol web admin "which snap"))
                (snd not_ready))
     (record (ERun (command_line "linux" (guestcontrol web admin "which apt"))
                   (snd not_ready))
        quiet)).
Proof.
  refine (discover_package_managers_presence "linux"
            (stub "poweroff" "Ubuntu_64" not_ready) web admin quiet
            (snd not_ready) (snd not_ready) _ _).
  - vm_compute. reflexivity.
  - vm_compute. reflexivity.
Defined.

(** * Further properties: the state machine *)

Section MoreRuns.
Variable platform : string.
Variable popen : list event -> string -> string * string.

(** The dispatch loop with fuel to spare: it tries again only after an
    answer with the error marker. *)
Lemma update_dispatch_marked (vm : Machine) (args : Options) (fuel : nat) :
  forall (n : nat) (r : string) (w : World),
    n <= 5 ->
    5 - n < fuel ->
    exists attempts l' w',
      update_dispatch platform popen fuel vm args
        {| attempt_count := n; error_detected := false; response := r |} w
      = (Returned l', w') /\
      history w' =
        (history w ++ flat_map (attempt_trace platform vm args) attempts)%list /\
      if error_detected l'
      then List.length attempts = 5 - n /\ Forall marked attempts /\
           attempt_count l' = 6
      else exists earlier a,
             attempts = (earlier ++ [a])%list /\ Forall marked earlier /\
             ~ marked a /\ response l' = dispatched a /\
             List.length attempts <= 5 - n.
Proof.
  induction fuel as [|fuel IH]; intros n r w Hn Hfuel; [lia|].
  cbn [update_dispatch error_detected attempt_count response].
  destruct (5 <? n + 1)%nat eqn:Hbudget.
  - apply Nat.ltb_lt in Hbudget.
    exists [], {| attempt_count := n + 1; error_detected := true; response := r |}, w.
    cbn [flat_map error_detected attempt_count List.length]. rewrite app_nil_r.
    split; [reflexivity|]. split; [reflexivity|].
    split; [lia|]. split; [constructor | lia].
  - apply Nat.ltb_ge in Hbudget.
    destruct (run_update_command_run platform popen vm args w)
      as (w1 & Hrun & Hh1 & _).
    set (a := next_attempt platform popen vm args (history w)) in *.
    rewrite (bind_returned _ _ _ _ _ Hrun).
    destruct (Py.contains "error:" (dispatched a)) eqn:Hmark.
    + rewrite bind_run, sleep_run.
      destruct (IH (n + 1) (dispatched a) (record (ESleep 30) w1))
        as (attempts & l' & w' & Hloop & Hh & Hcase); [lia | lia |].
      exists (a :: attempts), l', w'. split; [exact Hloop|]. split.
      { rewrite Hh, history_record, Hh1. cbn [flat_map].
        unfold attempt_trace at 2. rewrite Hmark. now rewrite <- !app_assoc. }
      destruct (error_detected l').
      * destruct Hcase as (Hlen & Hall & Hc). cbn [List.length].
        split; [lia|]. split; [now constructor | exact Hc].
      * destruct Hcase as (earlier & b & -> & Hall & Hb & Hr & Hc).
        exists (a :: earlier), b. cbn [List.length] in *.
        split; [reflexivity|]. split; [now constructor|].
        split; [exact Hb|]. split; [exact Hr | lia].
    + exists [a], {| attempt_count := n + 1; error_detected := false;
                    response := dispatched a |}, w1.
      cbn [flat_map error_detected attempt_count response List.length].
      split; [reflexivity|]. split.
      { rewrite Hh1. unfold attempt_trace. rewrite Hmark. now rewrite !app_nil_r. }
      exists [], a. split; [reflexivity|]. split; [constructor|].
      split; [unfold marked; now rewrite Hmark|]. split; [reflexivity | lia].
Qed.

End MoreRuns.

(** X10.  For an eligible machine whose start command is not acknowledged,
    [update] returns [False] after the start command and the wait of sixty
    seconds: the start is not tried again, no guest command is run and the
    power button is not sent. *)
Theorem update_start_refused
    (platform : string) (popen : list event -> string -> string * string)
    (fuel : nat) (vm : Machine) (args : Options) (w : World) :
  eligible platform popen vm w ->
  Py.contains "successfully started" (start_answer platform popen vm w) = false ->
  update platform popen fuel vm args w =
    (Returned false, booted platform popen vm w) /\
  history (booted platform popen vm w) =
    (history w ++ [ERun (command_line platform (showvminfo vm))
                        (first_info platform popen vm w);
                   ERun (command_line platform (startvm vm))
                        (start_answer platform popen vm w);
                   ESleep 60])%list.
Proof.
  intros (Hstate & ostype & Hos & Hne) Hstart.
  split; [|apply history_booted].
  rewrite update_run. cbv zeta. rewrite Hstate, Hos, Hstart.
  change ("poweroff" =? "poweroff")%string with true. cbn [negb].
  destruct (String.eqb_spec "Windows" ostype) as [E|_]; [congruence|].
  reflexivity.
Qed.

Lemma update_start_refused_witness :
  update "linux" locked 21 web admin quiet =
  (Returned false, booted "linux" locked web quiet).
Proof.
  refine (proj1 (update_start_refused "linux" locked 21 web admin quiet _ _)).
  - split; [vm_compute; reflexivity|].
    exists "Ubuntu_64". split; [vm_compute; reflexivity | discriminate].
  - vm_compute. reflexivity.
Defined.

(** X11.  [update] catches nothing that [find_property_value] raises on
    the answer to a state query.  When the answer to its first query has
    no line for VMState, or reports the state poweroff and has no line for
    ostype, [update] raises that exception after that one query.  For an
    eligible machine whose start is acknowledged, and with fuel for the
    two bounded loops, when the answer to the first query of the power-off
    wait has no line for VMState, [update] raises that exception after
    the power button, the settle delay and that query. *)
Theorem update_propagates_query_failure
    (platform : string) (popen : list event -> string -> string * string)
    (fuel : nat) (vm : Machine) (args : Options) (w : World) :
  (forall e,
     find_property_value (first_info platform popen vm w) "VMState" = Raise e ->
     update platform popen fuel vm args w =
       (Raised e, queried platform popen vm w)) /\
  (forall e,
     find_property_value (first_info platform popen vm w) "VMState" = Ok "poweroff" ->
     find_property_value (first_info platform popen vm w) "ostype" = Raise e ->
     update platform popen fuel vm args w =
       (Raised e, queried platform popen vm w)) /\
  (eligible platform popen vm w ->
   started platform popen vm w ->
   21 <= fuel ->
   exists middle out w_off,
     history w_off =
       (history w ++ middle
        ++ [ERun (command_line platform (acpipowerbutton vm)) out; ESleep 30])%list /\
     forall e,
       find_property_value (first_info platform popen vm w_off) "VMState" = Raise e ->
       update platform popen fuel vm args w =
         (Raised e, queried platform popen vm w_off)).
Proof.
  split; [|split].
  - intros e He. rewrite update_run. cbv zeta. now rewrite He.
  - intros e Hstate He. rewrite update_run. cbv zeta. rewrite Hstate, He.
    reflexivity.
  - intros Helig Hstart Hfuel.
    rewrite (update_eligible_started platform popen fuel vm args w Helig Hstart).
    destruct (update_started_exact platform popen vm args fuel
                (start_answer platform popen vm w)
                (narrate "Waiting to run update command"
                   (narrate "Machine started successfully"
                      (booted platform popen vm w))) Hfuel)
      as (attempts & out & w_off & _ & Hh & _ & _ & Hrun).
    cbv zeta in Hh. rewrite !history_narrate, history_booted in Hh.
    exists ([ERun (command_line platform (showvminfo vm))
                  (first_info platform popen vm w);
             ERun (command_line platform (startvm vm))
                  (start_answer platform popen vm w);
             ESleep 60]
            ++ flat_map (attempt_trace platform vm args) attempts
            ++ repeat (ESleep 30)
                 (waits (last (map dispatched attempts)
                              (start_answer platform popen vm w))))%list,
      out, w_off.
    split; [rewrite Hh; now rewrite <- !app_assoc|].
    intros e He. rewrite Hrun. unfold update_power_off.
    destruct fuel as [|fuel']; [lia|].
    rewrite bind_run, update_shutdown_step. cbv zeta. now rewrite He.
Qed.

Lemma update_propagates_query_failure_witness :
  fst (update "linux" lost_after_button 21 web admin quiet) =
  Raised (not_found "VMState").
Proof.
  destruct (proj2 (proj2 (update_propagates_query_failure "linux" lost_after_button
                            21 web admin quiet)))
    as (middle & out & w_off & Hh & Hraise).
  - split; [vm_compute; reflexivity|].
    exists "Ubuntu_64". split; [vm_compute; reflexivity | discriminate].
  - vm_compute. reflexivity.
  - apply le_n.
  - rewrite (Hraise (not_found "VMState")); [reflexivity|].
    assert (Hshow : Py.startswith (command_line "linux" (showvminfo web))
                      "VBoxManage showvminfo " = true)
      by (vm_compute; reflexivity).
    assert (Hbutton : Py.startswith (command_line "linux" (acpipowerbutton web))
                        "VBoxManage controlvm " = true)
      by (vm_compute; reflexivity).
    assert (Hsent : button_sent (history w_off) = true).
    { rewrite Hh. unfold button_sent. rewrite !existsb_app.
      cbn [existsb]. rewrite Hbutton. cbn [orb]. now rewrite !orb_true_r. }
    unfold first_info, tool_output, lost_after_button.
    rewrite Hshow, Hsent. vm_compute. reflexivity.
Defined.

(** X14.  With fuel for its six turns the dispatch loop returns, and it
    dispatches again only after an answer with the error marker: either
    the last of one to five attempts is the first whose answer carries no
    marker, and that answer is the response kept, or all of exactly five
    attempts carry it and the error flag is set. *)
Theorem update_dispatch_retries
    (platform : string) (popen : list event -> string -> string * string)
    (fuel : nat) (vm : Machine) (args : Options) (answer : string) (w : World) :
  6 <= fuel ->
  exists attempts l' w',
    update_dispatch platform popen fuel vm args
      {| attempt_count := 0; error_detected := false; response := answer |} w
    = (Returned l', w') /\
    history w' =
      (history w ++ flat_map (attempt_trace platform vm args) attempts)%list /\
    if error_detected l'
    then List.length attempts = 5 /\ Forall marked attempts
    else exists earlier a,
           attempts = (earlier ++ [a])%list /\ List.length attempts <= 5 /\
           Forall marked earlier /\ ~ marked a /\
           response l' = dispatched a.
Proof.
  intros Hfuel.
  destruct (update_dispatch_marked platform popen vm args fuel 0 answer w)
    as (attempts & l' & w' & Hrun & Hh & Hcase); [lia | lia |].
  exists attempts, l', w'. split; [exact Hrun|]. split; [exact Hh|].
  destruct (error_detected l') eqn:Herr.
  - destruct Hcase as (Hlen & Hall & _). now split.
  - destruct Hcase as (earlier & a & -> & Hall & Ha & Hr & Hc).
    exists earlier, a. split; [reflexivity|]. split; [lia|].
    split; [exact Hall|]. split; [exact Ha | exact Hr].
Qed.

Lemma update_dispatch_retries_witness :
  exists attempts l' w',
    update_dispatch "linux" (stub "poweroff" "Ubuntu_64" not_ready) 6 web admin
      {| attempt_count := 0; error_detected := false; response := "" |} quiet
    = (Returned l', w') /\
    history w' =
      (history quiet ++ flat_map (attempt_trace "linux" web admin) attempts)%list /\
    if error_detected l'
    then List.length attempts = 5 /\ Forall marked attempts
    else exists earlier a,
           attempts = (earlier ++ [a])%list /\ List.length attempts <= 5 /\
           Forall marked earlier /\ ~ marked a /\
           response l' = dispatched a.
Proof.
  exact (update_dispatch_retries "linux" (stub "poweroff" "Ubuntu_64" not_ready)
           6 web admin "" quiet (le_n 6)).
Defined.


(** * Further properties: what a run keeps *)

Section Frame.
Variable platform : string.
Variable popen : list event -> string -> string * string.

(** A relation between worlds that every step of [update] keeps. *)
Variable R : World -> World -> Prop.
Hypothesis R_refl : forall w, R w w.
Hypothesis R_trans : forall a b c, R a b -> R b c -> R a c.
Hypothesis R_narrate : forall message w, R w (narrate message w).
Hypothesis R_event : forall e w, tool_or_sleep platform e -> R w (record e w).
Hypothesis R_note : forall text w, R w (note text w).

Lemma respects_ret {A} (a : A) : respects R (ret a).
Proof. intros w. apply R_refl. Qed.

Lemma respects_lift {A} (r : result A) : respects R (lift r).
Proof. intros w. destruct r; apply R_refl. Qed.

Lemma respects_pending {A} : respects R (@pending A).
Proof. intros w. apply R_refl. Qed.

Lemma respects_bind {A B} (m : M A) (f : A -> M B) :
  respects R m -> (forall a, respects R (f a)) -> respects R (bind m f).
Proof.
  intros Hm Hf w. unfold bind. specialize (Hm w).
  destruct (m w) as [[a|e|] w']; cbn [snd] in *; try exact Hm.
  eapply R_trans; [exact Hm | apply Hf].
Qed.

Lemma respects_print_if_verbose (message : string) :
  respects R (print_if_verbose message).
Proof. intros w. rewrite print_if_verbose_run. apply R_narrate. Qed.

Lemma respects_sleep (n : nat) : respects R (sleep n).
Proof. intros w. rewrite sleep_run. now apply R_event. Qed.

Lemma respects_inspect (sub text : string) : respects R (inspect sub text).
Proof. intros w. rewrite inspect_run. apply R_note. Qed.

Lemma respects_vboxmanage (command : string) :
  respects R (vboxmanage platform popen command).
Proof.
  intros w. rewrite vboxmanage_run. apply R_event. now exists command.
Qed.

Ltac frame_with known :=
  repeat (cbv zeta;
          first [ known
                | apply respects_ret
                | apply respects_lift
                | apply respects_pending
                | apply respects_print_if_verbose
                | apply respects_sleep
                | apply respects_inspect
                | apply respects_vboxmanage
                | apply respects_bind; [|intros]
                | match goal with
                  | |- respects _ (if ?b then _ else _) => destruct b
                  end ]).

Ltac frame := frame_with fail.

Lemma respects_run_command (vm : Machine) (args : Options) (command : string) :
  respects R (run_command platform popen vm args command).
Proof. unfold run_command. frame. Qed.

Lemma respects_run_update_command (vm : Machine) (args : Options) :
  respects R (run_update_command platform popen vm args).
Proof.
  unfold run_update_command, discover_package_managers.
  cbn [map fst discover_package_managers_keys].
  frame; apply respects_run_command.
Qed.

Lemma respects_update_dispatch (vm : Machine) (args : Options) (fuel : nat) :
  forall l, respects R (update_dispatch platform popen fuel vm args l).
Proof.
  induction fuel as [|fuel IH]; intros l; cbn [update_dispatch]; frame;
    first [apply respects_run_update_command | apply IH].
Qed.

Lemma respects_update_completion (fuel : nat) :
  forall l, respects R (update_completion fuel l).
Proof.
  induction fuel as [|fuel IH]; intros l; cbn [update_completion]; frame.
  apply IH.
Qed.

Lemma respects_update_shutdown (vm : Machine) (fuel : nat) :
  respects R (update_shutdown platform popen fuel vm).
Proof.
  induction fuel as [|fuel IH]; cbn [update_shutdown]; frame. apply IH.
Qed.

Lemma respects_update (fuel : nat) (vm : Machine) (args : Options) :
  respects R (update platform popen fuel vm args).
Proof.
  unfold update. frame;
    first [ apply respects_update_dispatch
          | apply respects_update_completion
          | apply respects_update_shutdown ].
Qed.

(** The relation is also kept by what only [main] does: it prints and it
    sets the global [verbose]. *)
Hypothesis R_printed : forall msg w, R w (printed msg w).
Hypothesis R_verbose : forall w, R w (with_verbose true w).

Lemma respects_print (msg : string) : respects R (print msg).
Proof. intros w. apply R_printed. Qed.

Lemma respects_parse_arguments (argv : list string) :
  respects R (parse_arguments argv).
Proof.
  assert (Hflags : forall flags arguments,
            respects R (parse_arguments_flags flags arguments)).
  { induction flags as [|arg flags IH]; intros arguments;
      cbn [parse_arguments_flags]; frame;
      first [apply IH | apply respects_print | idtac].
    intros w. apply R_verbose. }
  destruct argv as [|script [|user [|pass flags]]]; cbn [parse_arguments];
    first [apply respects_ret | apply Hflags].
Qed.

Lemma respects_main_machines (fuel : nat) (args : Options)
    (machines : list Machine) :
  forall i, respects R (main_machines platform popen fuel args i machines).
Proof.
  induction machines as [|vm rest IH]; intros i; cbn [main_machines];
    frame_with ltac:(first [ apply respects_print
                           | apply respects_update
                           | apply IH ]).
Qed.

(** [main] keeps the relation when the host shutdown is not asked for. *)
Lemma respects_main (fuel : nat) (argv : list string) (w : World) :
  (forall args w1,
     parse_arguments argv w = (Returned (Some args), w1) ->
     shutdown args = false) ->
  R w (snd (main platform popen fuel argv w)).
Proof.
  intros Hoff. unfold main. rewrite bind_run.
  pose proof (respects_parse_arguments argv w) as Hparse.
  destruct (parse_arguments argv w) as [[[args|]|e|] w1] eqn:E;
    cbn [snd] in *; try exact Hparse.
  - rewrite (Hoff args w1 eq_refl).
    eapply R_trans; [exact Hparse|].
    match goal with |- R w1 (snd (?m w1)) => enough (H : respects R m) by apply H end.
    frame_with ltac:(first [ apply respects_print
                           | apply respects_main_machines
                           | match goal with
                             | |- respects _ (match ?x with _ => _ end) =>
                                 destruct x
                             end ]).
  - eapply R_trans; [exact Hparse|].
    match goal with |- R w1 (snd (?m w1)) => enough (H : respects R m) by apply H end.
    unfold print_help. frame; [apply respects_print|].
    intros w0. apply R_refl.
Qed.

End Frame.

Section Kept.
Variable platform : string.
Variable popen : list event -> string -> string * string.

Lemma grows_by_refl (Q : event -> Prop) (w : World) : grows_by Q w w.
Proof. exists []. split; [now rewrite app_nil_r | constructor]. Qed.

Lemma grows_by_trans (Q : event -> Prop) (a b c : World) :
  grows_by Q a b -> grows_by Q b c -> grows_by Q a c.
Proof.
  intros (e1 & H1 & Q1) (e2 & H2 & Q2). exists (e1 ++ e2)%list. split.
  - now rewrite H2, H1, app_assoc.
  - apply Forall_app. now split.
Qed.

Lemma grows_by_same (Q : event -> Prop) (w w' : World) :
  history w' = history w -> grows_by Q w w'.
Proof. intros H. exists []. split; [now rewrite app_nil_r | constructor]. Qed.

Lemma grows_by_event (Q : event -> Prop) (e : event) (w : World) :
  Q e -> grows_by Q w (record e w).
Proof. intros H. exists [e]. split; [reflexivity | now repeat constructor]. Qed.

(** [update] grows the history by hypervisor events only. *)
Lemma update_grows (fuel : nat) (vm : Machine) (args : Options) :
  respects (grows_by (tool_or_sleep platform)) (update platform popen fuel vm args).
Proof.
  apply respects_update.
  - apply grows_by_refl.
  - apply grows_by_trans.
  - intros message w. apply grows_by_same, history_narrate.
  - intros e w. apply grows_by_event.
  - intros text w. now apply grows_by_same.
Qed.

(** [update] prints nothing when the global [verbose] is off. *)
Lemma update_stays_quiet (fuel : nat) (vm : Machine) (args : Options) :
  respects stays_quiet (update platform popen fuel vm args).
Proof.
  apply respects_update; unfold stays_quiet.
  - now intros w H.
  - intros a b c Hab Hbc Ha. destruct (Hab Ha) as [Hb Hs].
    destruct (Hbc Hb) as [Hc Hs']. split; [exact Hc | congruence].
  - intros message w H. unfold narrate. now rewrite H.
  - now intros e w _ H.
  - now intros text w H.
Qed.


(** The options that [parse_arguments] returns are the initial ones with
    the flags switched on, all of which it recognised. *)
Lemma parse_arguments_flags_some (flags : list string) :
  forall (arguments args : Options) (w w1 : World),
    parse_arguments_flags flags arguments w = (Returned (Some args), w1) ->
    shutdown args = shutdown arguments || given "-s" flags.
Proof.
  induction flags as [|arg flags IH]; intros arguments args w w1 H.
  - injection H as <- _. unfold given. cbn. now rewrite orb_false_r.
  - cbn [parse_arguments_flags] in H. unfold given. cbn [existsb].
    fold (given "-s" flags).
    destruct ("-h" =? arg)%string; [discriminate|].
    destruct (String.eqb_spec "-r" arg) as [<-|_].
    { apply IH in H. cbn [shutdown] in H. rewrite H.
      now change ("-s" =? "-r")%string with false. }
    destruct (String.eqb_spec "-s" arg) as [<-|_].
    { apply IH in H. cbn [shutdown] in H. rewrite H.
      now rewrite orb_true_r. }
    destruct (String.eqb_spec "-v" arg) as [<-|_]; [|discriminate].
    unfold bind, set_verbose in H. apply IH in H. cbn [shutdown] in H.
    rewrite H. now change ("-s" =? "-v")%string with false.
Qed.

End Kept.

(** X13.  From a world in which the global [verbose] is off, [update]
    prints nothing and leaves the flag off, whatever the tool answers and
    however the run ends. *)
Theorem update_quiet
    (platform : string) (popen : list event -> string -> string * string)
    (fuel : nat) (vm : Machine) (args : Options) (w : World) :
  verbose w = false ->
  verbose (snd (update platform popen fuel vm args w)) = false /\
  stdout (snd (update platform popen fuel vm args w)) = stdout w.
Proof. apply update_stays_quiet. Qed.

Lemma update_quiet_witness :
  stdout (snd (update "linux" (stub "poweroff" "Ubuntu_64" not_ready) 21
                 web admin quiet)) = [].
Proof.
  exact (proj2 (update_quiet "linux" (stub "poweroff" "Ubuntu_64" not_ready) 21
                  web admin quiet eq_refl)).
Defined.

(** X16.  Whatever the tool answers and however the run ends, [update]
    only adds to the history, and what it adds are runs of the VBoxManage
    binary of the platform and sleeps: it starts no other process. *)
Theorem update_runs_tool_only
    (platform : string) (popen : list event -> string -> string * string)
    (fuel : nat) (vm : Machine) (args : Options) (w : World) :
  exists events,
    history (snd (update platform popen fuel vm args w)) =
      (history w ++ events)%list /\
    Forall (tool_or_sleep platform) events.
Proof. apply update_grows. Qed.

(** X17.  [main] starts the shutdown of the host only when -s is given:
    without it the history grows by runs of VBoxManage and sleeps only;
    with it, when [main] returns, the last event is the start of the
    shutdown command of the platform, which is not waited for. *)
Theorem main_host_shutdown
    (platform : string) (popen : list event -> string -> string * string)
    (fuel : nat) (script user pass : string) (flags : list string) (w : World) :
  (given "-s" flags = false ->
   grows_by (tool_or_sleep platform) w
     (snd (main platform popen fuel (script :: user :: pass :: flags) w))) /\
  (given "-s" flags = true ->
   forall r,
     fst (main platform popen fuel (script :: user :: pass :: flags) w)
       = Returned r ->
     exists h,
       history (snd (main platform popen fuel (script :: user :: pass :: flags) w))
       = (h ++ [ESpawn (host_shutdown platform)])%list).
Proof.
  split.
  - intros Hoff. apply respects_main.
    + apply grows_by_refl.
    + apply grows_by_trans.
    + intros message w0. apply grows_by_same, history_narrate.
    + intros e w0. apply grows_by_event.
    + intros text w0. now apply grows_by_same.
    + intros msg w0. now apply grows_by_same.
    + intros w0. now apply grows_by_same.
    + intros args w1 Hparse. cbn [parse_arguments] in Hparse.
      apply parse_arguments_flags_some in Hparse. now rewrite Hparse, Hoff.
  - intros Hon r. unfold main. rewrite bind_run.
    destruct (parse_arguments (script :: user :: pass :: flags) w)
      as [[[args|]|e|] w1] eqn:Hparse; try discriminate.
    cbn [parse_arguments] in Hparse.
    apply parse_arguments_flags_some in Hparse. cbn [shutdown] in Hparse.
    rewrite Hon in Hparse. cbn [orb] in Hparse. rewrite Hparse.
    rewrite bind_run, vboxmanage_run.
    destruct (parse_machines _) as [[machines|]|e]; try discriminate.
    rewrite bind_lift_ok, bind_run.
    cbn [print fst snd]. rewrite bind_run.
    match goal with
    | |- context [main_machines platform popen fuel args 0 machines ?w0] =>
        destruct (main_machines platform popen fuel args 0 machines w0)
          as [[[]|e|] w2]
    end; try discriminate.
    intros _. exists (history w2). unfold host_shutdown.
    destruct ("Windows" =? get_host_os platform)%string; reflexivity.
Qed.

Lemma main_host_shutdown_witness :
  exists h,
    history (snd (main "linux" (stub "running" "Ubuntu_64" not_ready) 21
                    ["update.py"; "admin"; "hunter2"; "-s"] quiet))
    = (h ++ [ESpawn "shutdown"])%list.
Proof.
  refine (proj2 (main_host_shutdown "linux" (stub "running" "Ubuntu_64" not_ready)
                   21 "update.py" "admin" "hunter2" ["-s"] quiet) _ None _).
  - reflexivity.
  - vm_compute. reflexivity.
Defined.



(** * Further properties: narration does not steer *)

Section Oblivious.
Variable platform : string.
Variable popen : list event -> string -> string * string.

Lemma oblivious_ret {A} (a : A) : oblivious (ret a).
Proof. intros w1 w2 H. now split. Qed.

Lemma oblivious_lift {A} (r : result A) : oblivious (lift r).
Proof. intros w1 w2 H. destruct r; now split. Qed.

Lemma oblivious_pending {A} : oblivious (@pending A).
Proof. intros w1 w2 H. now split. Qed.

Lemma oblivious_exit {A} : oblivious (@exit A).
Proof. intros w1 w2 H. now split. Qed.

Lemma oblivious_bind {A B} (m : M A) (f : A -> M B) :
  oblivious m -> (forall a, oblivious (f a)) -> oblivious (bind m f).
Proof.
  intros Hm Hf w1 w2 H. unfold bind. destruct (Hm w1 w2 H) as [Hfst Hh].
  destruct (m w1) as [s1 w1'], (m w2) as [s2 w2']. cbn [fst snd] in *.
  subst s2. destruct s1 as [a|e|]; [now apply Hf | now split | now split].
Qed.

Lemma oblivious_print (msg : string) : oblivious (print msg).
Proof. intros w1 w2 H. now split. Qed.

Lemma oblivious_print_if_verbose (message : string) :
  oblivious (print_if_verbose message).
Proof.
  intros w1 w2 H. rewrite !print_if_verbose_run. cbn [fst snd].
  now rewrite !history_narrate.
Qed.

Lemma oblivious_set_verbose : oblivious set_verbose.
Proof. intros w1 w2 H. now split. Qed.

Lemma oblivious_sleep (n : nat) : oblivious (sleep n).
Proof.
  intros w1 w2 H. rewrite !sleep_run. cbn [fst snd].
  now rewrite !history_record, H.
Qed.

Lemma oblivious_spawn (cmdline : string) : oblivious (spawn cmdline).
Proof.
  intros w1 w2 H. unfold spawn. cbn [fst snd]. now rewrite !history_record, H.
Qed.

Lemma oblivious_inspect (sub text : string) : oblivious (inspect sub text).
Proof. intros w1 w2 H. now split. Qed.

Lemma oblivious_vboxmanage (command : string) :
  oblivious (vboxmanage platform popen command).
Proof.
  intros w1 w2 H. rewrite !vboxmanage_run. cbn [fst snd].
  now rewrite !history_record, H.
Qed.

Ltac blind_with known :=
  repeat (cbv zeta;
          first [ known
                | apply oblivious_ret
                | apply oblivious_lift
                | apply oblivious_pending
                | apply oblivious_exit
                | apply oblivious_print_if_verbose
                | apply oblivious_print
                | apply oblivious_set_verbose
                | apply oblivious_sleep
                | apply oblivious_spawn
                | apply oblivious_inspect
                | apply oblivious_vboxmanage
                | apply oblivious_bind; [|intros]
                | match goal with
                  | |- oblivious (if ?b then _ else _) => destruct b
                  | |- oblivious (match ?x with _ => _ end) => destruct x
                  end ]).

Lemma oblivious_run_update_command (vm : Machine) (args : Options) :
  oblivious (run_update_command platform popen vm args).
Proof.
  unfold run_update_command, discover_package_managers, run_command.
  cbn [map fst discover_package_managers_keys]. unfold run_command.
  blind_with fail.
Qed.

Lemma oblivious_update_dispatch (vm : Machine) (args : Options) (fuel : nat) :
  forall l, oblivious (update_dispatch platform popen fuel vm args l).
Proof.
  induction fuel as [|fuel IH]; intros l; cbn [update_dispatch];
    blind_with ltac:(first [apply oblivious_run_update_command | apply IH]).
Qed.

Lemma oblivious_update_completion (fuel : nat) :
  forall l, oblivious (update_completion fuel l).
Proof.
  induction fuel as [|fuel IH]; intros l; cbn [update_completion];
    blind_with ltac:(apply IH).
Qed.

Lemma oblivious_update_shutdown (vm : Machine) (fuel : nat) :
  oblivious (update_shutdown platform popen fuel vm).
Proof.
  induction fuel as [|fuel IH]; cbn [update_shutdown];
    blind_with ltac:(apply IH).
Qed.

Lemma oblivious_update (fuel : nat) (vm : Machine) (args : Options) :
  oblivious (update platform popen fuel vm args).
Proof.
  unfold update.
  blind_with ltac:(first [ apply oblivious_update_dispatch
                         | apply oblivious_update_completion
                         | apply oblivious_update_shutdown ]).
Qed.

Lemma oblivious_parse_arguments (argv : list string) :
  oblivious (parse_arguments argv).
Proof.
  assert (Hflags : forall flags arguments,
            oblivious (parse_arguments_flags flags arguments)).
  { induction flags as [|arg flags IH]; intros arguments;
      cbn [parse_arguments_flags]; blind_with ltac:(apply IH). }
  destruct argv as [|script [|user [|pass flags]]]; cbn [parse_arguments];
    first [apply oblivious_ret | apply Hflags].
Qed.

Lemma oblivious_main_machines (fuel : nat) (args : Options)
    (machines : list Machine) :
  forall i, oblivious (main_machines platform popen fuel args i machines).
Proof.
  induction machines as [|vm rest IH]; intros i; cbn [main_machines];
    blind_with ltac:(first [apply oblivious_update | apply IH]).
Qed.

Lemma oblivious_main (fuel : nat) (argv : list string) :
  oblivious (main platform popen fuel argv).
Proof.
  unfold main, print_help.
  blind_with ltac:(first [ apply oblivious_parse_arguments
                         | apply oblivious_main_machines ]).
Qed.

End Oblivious.

(** X12.  Neither the global [verbose] nor what was printed steers a run:
    started in two worlds with the same history, [update] gives the same
    result and leaves the same history, and so does [main]. *)
Theorem run_ignores_narration
    (platform : string) (popen : list event -> string -> string * string)
    (fuel : nat) (vm : Machine) (args : Options) (argv : list string)
    (w1 w2 : World) :
  history w1 = history w2 ->
  (fst (update platform popen fuel vm args w1)
     = fst (update platform popen fuel vm args w2) /\
   history (snd (update platform popen fuel vm args w1))
     = history (snd (update platform popen fuel vm args w2))) /\
  (fst (main platform popen fuel argv w1) = fst (main platform popen fuel argv w2) /\
   history (snd (main platform popen fuel argv w1))
     = history (snd (main platform popen fuel argv w2))).
Proof.
  intros H. split; [now apply oblivious_update | now apply oblivious_main].
Qed.

Lemma run_ignores_narration_witness :
  history (snd (update "linux" (stub "poweroff" "Ubuntu_64" not_ready) 21
                  web admin quiet))
  = history (snd (update "linux" (stub "poweroff" "Ubuntu_64" not_ready) 21
                    web admin chatty)).
Proof.
  exact (proj2 (proj1 (run_ignores_narration "linux"
                         (stub "poweroff" "Ubuntu_64" not_ready) 21 web admin []
                         quiet chatty eq_refl))).
Defined.
